(** * balloontrack: the ingestion pipeline of [gps_web_tracker.py]

    A shallow embedding of the stream framer ([GPSWebTracker.listen]), the
    report extractor ([parse_gps_data], [_extract_gps_point]), the bounded
    per-sender history store ([store_gps_data], [load_historical_data]) and
    the summarizer ([get_sender_summary], [_calculate_altitude_trend]).

    Python values are modelled as follows:
    - [str] as [string] (the tags searched for are ASCII), [int] as [Z],
      [float] as the primitive binary64 [float], [None]-able values as
      [option];
    - the point dictionaries as the record [Point], a key that may be
      missing being an [option] field;
    - [self.gps_data] and [self.latest_positions] as [gmap]s keyed by the
      sender (a [str], or [None] when the sender element had no text);
    - the builtins the code calls but does not define ([ET.fromstring],
      [float], [int]) as the operations of the class [PyRuntime]. *)

From Stdlib Require Import ZArith String List Bool Lia Sorted.
From Stdlib Require Import Floats.PrimFloat Floats.SpecFloat Floats.FloatOps.
From Stdlib Require Uint63.
From stdpp Require Import gmap strings list.

Set Warnings "-inexact-float,-register-all".
#[local] Open Scope Z_scope.

(** ** Python builtins used by the tracker *)

Module Py.

(** Truth value of a [str]-or-[None]: [None] and [''] are falsy. *)
Definition truthy (o : option string) : bool :=
  match o with
  | None => false
  | Some s => negb (String.eqb s EmptyString)
  end.

(** Index normalisation of a slice bound: negative bounds count from the
    end, and every bound is clamped to [0 .. len]. *)
Definition clamp (len i : Z) : Z :=
  if i <? 0 then Z.max 0 (i + len) else Z.min i len.

(** [s[lo:hi]] on strings. *)
Definition str_slice (s : string) (lo hi : Z) : string :=
  let len := Z.of_nat (String.length s) in
  let lo' := clamp len lo in
  let hi' := clamp len hi in
  String.substring (Z.to_nat lo') (Z.to_nat (hi' - lo')) s.

(** [s[lo:]] on strings. *)
Definition str_slice_from (s : string) (lo : Z) : string :=
  str_slice s lo (Z.of_nat (String.length s)).

(** [s.find(sub, start)] for [0 <= start]: the lowest index at or after
    [start] where [sub] occurs, [-1] when there is none. *)
Definition str_find (sub s : string) (start : Z) : Z :=
  match String.index (Z.to_nat start) sub s with
  | Some i => Z.of_nat i
  | None => -1
  end.

(** [sub in s]. *)
Definition str_in (sub s : string) : bool :=
  negb (str_find sub s 0 =? -1).

(** [l[lo:]] on lists. *)
Definition list_slice_from {A} (l : list A) (lo : Z) : list A :=
  drop (Z.to_nat (clamp (Z.of_nat (length l)) lo)) l.

(** [l[-1]]; [None] stands for the [IndexError] on an empty list. *)
Definition list_last {A} (l : list A) : option A := last l.

(** Nearest integer to [10 * m * 2^e], ties to even. *)
Definition tenths_half_even (m : positive) (e : Z) : Z :=
  let n := 10 * Z.pos m in
  if 0 <=? e then n * 2 ^ e
  else
    let d := 2 ^ (- e) in
    let q := n / d in
    match Z.compare (2 * (n mod d)) d with
    | Lt => q
    | Gt => q + 1
    | Eq => if Z.even q then q else q + 1
    end.

(** [round(x, 1)]: the exact value of [x] is rounded to the nearest
    multiple of one tenth (ties to even), and the result is the double
    nearest to that decimal.  Zeros, infinities and NaN round to
    themselves.  When the number of tenths needs more than 53 bits the
    spacing of doubles around [x] exceeds one tenth and [x] itself is the
    nearest double. *)
Definition round1 (x : float) : float :=
  match Prim2SF x with
  | S754_finite s m e =>
      let n := tenths_half_even m e in
      if n <? 2 ^ 53 then
        let r := PrimFloat.div (PrimFloat.of_uint63 (Uint63.of_Z n)) 10%float in
        if s then PrimFloat.opp r else r
      else x
  | _ => x
  end.

End Py.

(** ** Stream framer: the inner loop of [GPSWebTracker.listen] *)

Module Framer.

Definition open_tag : string := "<data>".
Definition close_tag : string := "</data>".

(** One evaluation of the [while] condition and body. *)
Inductive iteration :=
| Exit                                   (* the condition is false *)
| Emit (xml_message buffer' : string)    (* the [if] branch ran *)
| Skip.                                  (* the [if] test failed: nothing changes *)

Definition listen_iteration (buffer : string) : iteration :=
  if Py.str_in open_tag buffer && Py.str_in close_tag buffer then
    let start := Py.str_find open_tag buffer 0 in
    let end_ := Py.str_find close_tag buffer start + 7 in
    if negb (start =? -1) && (end_ >? start) then
      Emit (Py.str_slice buffer start end_) (Py.str_slice_from buffer end_)
    else Skip
  else Exit.

(** The [while] loop, bounded by [fuel] iterations.  [None] means the
    loop is still running after [fuel] iterations; [Some (msgs, buffer)]
    gives the messages handed to [parse_gps_data], in order, and the
    buffer kept for the next [recv]. *)
Fixpoint process_buffer (fuel : nat) (buffer : string)
  : option (list string * string) :=
  match fuel with
  | O => None
  | S fuel' =>
      match listen_iteration buffer with
      | Exit => Some ([], buffer)
      | Emit xml_message buffer' =>
          match process_buffer fuel' buffer' with
          | Some (msgs, rest) => Some (xml_message :: msgs, rest)
          | None => None
          end
      | Skip => process_buffer fuel' buffer
      end
  end.

(** The buffers on which the loop reaches an iteration that changes
    nothing, after emitting some messages or at once. *)
Inductive spins : string -> Prop :=
| spins_here buffer :
    listen_iteration buffer = Skip -> spins buffer
| spins_later buffer xml_message buffer' :
    listen_iteration buffer = Emit xml_message buffer' ->
    spins buffer' -> spins buffer.

(** [buffer += data] followed by the loop. *)
Definition feed (fuel : nat) (buffer data : string)
  : option (list string * string) :=
  process_buffer fuel (buffer +:+ data).

End Framer.

(** ** Element trees: the fragment of [xml.etree.ElementTree] in use *)

Module ET.

Inductive Element := Elem {
  tag : string;
  attrib : list (string * string);
  text : option string;            (* [None] for an element without text *)
  children : list Element
}.

(** [element.find(name)]: the first direct child with that tag. *)
Definition find (name : string) (element : Element) : option Element :=
  List.find (fun c => String.eqb (tag c) name) (children element).

(** [element.findall(name)]: all direct children with that tag, in
    document order. *)
Definition findall (name : string) (element : Element) : list Element :=
  List.filter (fun c => String.eqb (tag c) name) (children element).

(** [element.get(key, default)]. *)
Definition get (element : Element) (key default : string) : string :=
  match List.find (fun kv => String.eqb (fst kv) key) (attrib element) with
  | Some kv => snd kv
  | None => default
  end.

End ET.

(** The builtins that raise are given as partial functions: [None] stands
    for the exception ([ParseError] for [ET.fromstring], [ValueError] or
    [TypeError] for [float] and [int], which also receive the [None] text
    of an empty element). *)
Class PyRuntime := {
  ET_fromstring : string -> option ET.Element;
  py_float : option string -> option float;
  py_int : option string -> option Z
}.

(** ** Position records *)

(** One point dictionary.  [sender], [timestamp] and [protocol] hold what
    was read from the [meta] section, which is [None] when the element is
    missing or empty; the optional keys are [None] when the key is not set
    (or set to [None], which [dict.get] does not distinguish). *)
Record Point := {
  sender : option string;
  sender_type : option string;
  lat : float;
  lng : float;
  timestamp : option string;
  protocol : option string;
  altitude : option float;
  speed : option float;
  course : option float;
  gps_time : option string;
  fix_type : option string;
  satellites : option Z;
  emergency : option bool
}.

(** ** Report extractor: [parse_gps_data] and [_extract_gps_point] *)

Section Extractor.
Context `{PyRuntime}.

(** [-90 <= lat <= 90 and -180 <= lng <= 180] *)
Definition valid_coordinates (lat lng : float) : bool :=
  PrimFloat.leb (-90) lat && PrimFloat.leb lat 90 &&
  PrimFloat.leb (-180) lng && PrimFloat.leb lng 180.

(** The optional fields read through [float]: a failed conversion leaves
    the key unset. *)
Definition optional_float (xml_field : string) (element : ET.Element)
  : option float :=
  match ET.find xml_field element with
  | Some elem => py_float (ET.text elem)
  | None => None
  end.

Definition optional_int (xml_field : string) (element : ET.Element)
  : option Z :=
  match ET.find xml_field element with
  | Some elem => py_int (ET.text elem)
  | None => None
  end.

Definition optional_text (xml_field : string) (element : ET.Element)
  : option string :=
  match ET.find xml_field element with
  | Some elem => ET.text elem
  | None => None
  end.

(** [elem.text == '1'] when the element is there. *)
Definition optional_flag (xml_field : string) (element : ET.Element)
  : option bool :=
  match ET.find xml_field element with
  | Some elem => Some (bool_decide (ET.text elem = Some "1"%string))
  | None => None
  end.

Definition _extract_gps_point (element : ET.Element)
    (sender : option string) (sender_type : string)
    (timestamp protocol : option string) : option Point :=
  match ET.find "lat" element, ET.find "lng" element with
  | Some lat_elem, Some lng_elem =>
      match py_float (ET.text lat_elem) with
      | None => None
      | Some lat =>
          match py_float (ET.text lng_elem) with
          | None => None
          | Some lng =>
              if negb (valid_coordinates lat lng) then None
              else Some {|
                sender := sender;
                sender_type := Some sender_type;
                lat := lat;
                lng := lng;
                timestamp := timestamp;
                protocol := protocol;
                altitude := optional_float "alt" element;
                speed := optional_float "gndVel" element;
                course := optional_float "course" element;
                gps_time := optional_text "time" element;
                fix_type := optional_text "fix" element;
                satellites := optional_int "sats" element;
                emergency := optional_flag "emer" element
              |}
          end
      end
  | _, _ => None
  end.

Definition report_types : list string :=
  [ "nalGpsReport3"; "nalGpsReport4"; "nalGpsReport5";
    "nalGpsReport6"; "nalGpsReport7"; "nal10ByteGpsReport0";
    "pecosP3GpsReport"; "pecosP4GpsReport" ]%string.

(** [report_type in ['nalGpsReport3', 'nalGpsReport4']] *)
Definition is_collection (report_type : string) : bool :=
  existsb (String.eqb report_type) ["nalGpsReport3"; "nalGpsReport4"]%string.

(** The body run for the report found under [report_type]. *)
Definition extract_report (report_type : string) (report : ET.Element)
    (sender : option string) (sender_type : string)
    (timestamp protocol : option string) : list Point :=
  if is_collection report_type then
    omap (fun point =>
            _extract_gps_point point sender sender_type timestamp protocol)
         (ET.findall "point" report)
  else
    match _extract_gps_point report sender sender_type timestamp protocol with
    | Some gps_point => [gps_point]
    | None => []
    end.

(** [for report_type in report_types: ... break], started on the types
    still to be tried; [gps_points] is empty when the loop starts and is
    only written in the iteration that ends with [break]. *)
Fixpoint scan_report_types (types : list string) (root : ET.Element)
    (sender : option string) (sender_type : string)
    (timestamp protocol : option string) : list Point :=
  match types with
  | [] => []
  | report_type :: types' =>
      match ET.find report_type root with
      | Some report =>
          extract_report report_type report sender sender_type timestamp protocol
      | None =>
          scan_report_types types' root sender sender_type timestamp protocol
      end
  end.

(** [parse_gps_data]: [None] is the [return None] of the guards and of
    the [except] clause, [Some gps_points] the list returned at the end. *)
Definition parse_gps_data (target_sender : option string)
    (xml_data : string) : option (list Point) :=
  match ET_fromstring xml_data with
  | None => None
  | Some root =>
      match ET.find "meta" root with
      | None => None
      | Some meta =>
          match ET.find "sender" meta with
          | None => None
          | Some sender_elem =>
              let sender := ET.text sender_elem in
              let sender_type := ET.get sender_elem "type" "Unknown" in
              let timestamp :=
                match ET.find "time" meta with
                | Some time_elem => ET.text time_elem
                | None => None
                end in
              let protocol :=
                match ET.find "protocol" meta with
                | Some protocol_elem => ET.text protocol_elem
                | None => None
                end in
              if Py.truthy target_sender
                 && negb (bool_decide (sender = target_sender)) then None
              else
                Some (scan_report_types report_types root
                        sender sender_type timestamp protocol)
          end
      end
  end.

End Extractor.

(** ** History store: [store_gps_data] and [load_historical_data] *)

(** [self.gps_data] and [self.latest_positions]. *)
Record TrackerState := {
  gps_data : gmap (option string) (list Point);
  latest_positions : gmap (option string) Point
}.

Definition empty_state : TrackerState :=
  {| gps_data := ∅; latest_positions := ∅ |}.

(** One row of [SELECT sender, sender_type, latitude, ... FROM gps_points];
    the columns declared [NOT NULL] are not optional. *)
Record Row := {
  row_sender : string;
  row_sender_type : option string;
  row_latitude : float;
  row_longitude : float;
  row_altitude : option float;
  row_speed : option float;
  row_course : option float;
  row_timestamp : string;
  row_gps_time : option string;
  row_fix_type : option string;
  row_satellites : option Z;
  row_emergency : option Z;
  row_protocol : option string
}.

(** The [point] dictionary built from a row. *)
Definition point_of_row (row : Row) : Point :=
  {| sender := Some (row_sender row);
     sender_type := row_sender_type row;
     lat := row_latitude row;
     lng := row_longitude row;
     altitude := row_altitude row;
     speed := row_speed row;
     course := row_course row;
     timestamp := Some (row_timestamp row);
     gps_time := row_gps_time row;
     fix_type := row_fix_type row;
     satellites := row_satellites row;
     emergency := Some (match row_emergency row with
                        | Some b => negb (b =? 0)
                        | None => false
                        end);
     protocol := row_protocol row |}.

(** Result of a step that may raise inside the [try] of
    [load_historical_data]: the state reached, and whether the loop goes on. *)
Inductive load_step :=
| Continue (st : TrackerState)
| Raised (st : TrackerState).

Section Store.
Variable max_points_per_sender : Z.

(** [if len(l) > self.max_points_per_sender: l = l[-self.max_points_per_sender:]] *)
Definition limit_points (l : list Point) : list Point :=
  if Z.of_nat (length l) >? max_points_per_sender
  then Py.list_slice_from l (- max_points_per_sender)
  else l.

(** Body of the [for point in gps_points] loop of [store_gps_data]. *)
Definition store_point (st : TrackerState) (point : Point) : TrackerState :=
  let sender := sender point in
  let appended := default [] (gps_data st !! sender) ++ [point] in
  {| gps_data := <[sender := limit_points appended]> (gps_data st);
     latest_positions := <[sender := point]> (latest_positions st) |}.

(** The in-memory effect of [store_gps_data]. *)
Definition store_gps_data (st : TrackerState) (gps_points : list Point)
  : TrackerState :=
  match gps_points with
  | [] => st
  | _ => foldl store_point st gps_points
  end.

(** The block run when a run of rows ends (twice in the source):
    [if current_sender and points_for_sender: ...].  Reading
    [points_for_sender[-1]] raises when the truncated list is empty. *)
Definition install_sender (st : TrackerState)
    (current_sender : option string) (points_for_sender : list Point)
  : load_step :=
  if Py.truthy current_sender && negb (bool_decide (points_for_sender = []))
  then
    let points_for_sender := limit_points points_for_sender in
    let gps_data' := <[current_sender := points_for_sender]> (gps_data st) in
    match Py.list_last points_for_sender with
    | Some latest =>
        Continue {| gps_data := gps_data';
                    latest_positions :=
                      <[current_sender := latest]> (latest_positions st) |}
    | None =>
        Raised {| gps_data := gps_data';
                  latest_positions := latest_positions st |}
    end
  else Continue st.

(** [for row in rows: ...] followed by the final install; an exception
    leaves the state as it was when raised. *)
Fixpoint load_rows (rows : list Row) (current_sender : option string)
    (points_for_sender : list Point) (st : TrackerState) : TrackerState :=
  match rows with
  | [] =>
      match install_sender st current_sender points_for_sender with
      | Continue st' => st'
      | Raised st' => st'
      end
  | row :: rows' =>
      let sender := row_sender row in
      if negb (bool_decide (current_sender = Some sender)) then
        match install_sender st current_sender points_for_sender with
        | Continue st' =>
            load_rows rows' (Some sender) ([] ++ [point_of_row row]) st'
        | Raised st' => st'
        end
      else
        load_rows rows' current_sender
          (points_for_sender ++ [point_of_row row]) st
  end.

(** [load_historical_data] on the rows fetched from the database. *)
Definition load_historical_data (st : TrackerState) (rows : list Row)
  : TrackerState :=
  load_rows rows None [] st.

End Store.

(** ** Summarizer: [get_sender_summary] and [_calculate_altitude_trend] *)

Record AltitudeInfo := {
  current_altitude : option float;
  trend : string;
  change : float
}.

Definition threshold : float := 5.0.

Definition _calculate_altitude_trend (points : list Point) : AltitudeInfo :=
  match Py.list_last points with
  | None => {| current_altitude := None; trend := "stable"; change := 0.0 |}
  | Some latest =>
      let current := Py.round1 <$> altitude latest in
      let result :=
        {| current_altitude := current; trend := "stable"; change := 0.0 |} in
      if Z.of_nat (length points) <? 2 then result
      else
        let recent_points :=
          if Z.of_nat (length points) >=? 5
          then Py.list_slice_from points (-5) else points in
        let altitudes := omap altitude recent_points in
        if Z.of_nat (length altitudes) <? 2 then result
        else
          match head altitudes, Py.list_last altitudes with
          | Some first_alt, Some last_alt =>
              let altitude_change := PrimFloat.sub last_alt first_alt in
              {| current_altitude := current;
                 trend :=
                   if PrimFloat.ltb threshold altitude_change then "rising"
                   else if PrimFloat.ltb altitude_change (PrimFloat.opp threshold)
                        then "falling"
                        else "stable";
                 change := Py.round1 altitude_change |}
          | _, _ => result
          end
  end.

Record SenderSummary := {
  total_points : Z;
  latest_position : float * float;
  latest_time : option string;
  emergency_active : bool;
  summary_altitude : option float;
  altitude_trend : string;
  altitude_change : float
}.

(** The entry built for one sender; no entry for an empty list. *)
Definition summarize_sender (points : list Point) : option SenderSummary :=
  match Py.list_last points with
  | None => None
  | Some latest =>
      let altitude_info := _calculate_altitude_trend points in
      Some {| total_points := Z.of_nat (length points);
              latest_position := (lat latest, lng latest);
              latest_time := timestamp latest;
              emergency_active := default false (emergency latest);
              summary_altitude := current_altitude altitude_info;
              altitude_trend := trend altitude_info;
              altitude_change := change altitude_info |}
  end.

Definition get_sender_summary (st : TrackerState)
  : gmap (option string) SenderSummary :=
  omap summarize_sender (gps_data st).

(** ** The path of one framed message in [listen] *)

Section Ingest.
Context `{PyRuntime}.
Variable max_points_per_sender : Z.
Variable target_sender : option string.

(** [gps_points = self.parse_gps_data(xml_message)] then
    [if gps_points: self.store_gps_data(gps_points)]. *)
Definition handle_message (st : TrackerState) (xml_message : string)
  : TrackerState :=
  match parse_gps_data target_sender xml_message with
  | Some (gps_point :: gps_points) =>
      store_gps_data max_points_per_sender st (gps_point :: gps_points)
  | _ => st
  end.

End Ingest.

(** ** The altitude rule as the specification words it *)

(** "If fewer than 2 records, or the last min(5, count) records hold fewer
    than 2 altitudes: stable, 0.0.  Otherwise change is last minus first
    collected altitude rounded to 1 decimal, and the trend is rising if
    change > 5.0, falling if change < -5.0, else stable." *)
Module AltitudeSpec.

Definition last_records (points : list Point) : list Point :=
  let count := length points in
  drop (count - Nat.min 5 count)%nat points.

Definition collected (points : list Point) : list float :=
  omap altitude (last_records points).

Definition current (points : list Point) : option float :=
  match last points with
  | Some latest => Py.round1 <$> altitude latest
  | None => None
  end.

Definition classify (x : float) : string :=
  if PrimFloat.ltb 5.0 x then "rising"
  else if PrimFloat.ltb x (-5.0) then "falling"
  else "stable".

(** The difference the spec calls [change] before it is rounded. *)
Definition difference (points : list Point) : float :=
  match head (collected points), last (collected points) with
  | Some first_alt, Some last_alt => PrimFloat.sub last_alt first_alt
  | _, _ => 0.0
  end.

Definition too_few (points : list Point) : bool :=
  (length points <? 2)%nat || (length (collected points) <? 2)%nat.

(** The rule as written: the trend is read off the rounded change. *)
Definition altitude_trend (points : list Point) : AltitudeInfo :=
  if too_few points then
    {| current_altitude := current points; trend := "stable"; change := 0.0 |}
  else
    let change := Py.round1 (difference points) in
    {| current_altitude := current points;
       trend := classify change;
       change := change |}.

(** The same rule with the trend read off the difference itself. *)
Definition altitude_trend_unrounded (points : list Point) : AltitudeInfo :=
  if too_few points then
    {| current_altitude := current points; trend := "stable"; change := 0.0 |}
  else
    {| current_altitude := current points;
       trend := classify (difference points);
       change := Py.round1 (difference points) |}.

End AltitudeSpec.

(** ** Sample data for the examples *)

Module Sample.

Definition leaf (name value : string) : ET.Element :=
  ET.Elem name [] (Some value) [].

Definition node (name : string) (kids : list ET.Element) : ET.Element :=
  ET.Elem name [] None kids.

(** A point dictionary with only the keys the summarizer tests set. *)
Definition reading (name : string) (alt : option float) (emer : option bool)
  : Point :=
  {| sender := Some name; sender_type := None; lat := 34.0; lng := (-118.0);
     timestamp := Some "2025-09-02T10:00:00"%string; protocol := None;
     altitude := alt; speed := None; course := None; gps_time := None;
     fix_type := None; satellites := None; emergency := emer |}.

Definition row (name stamp : string) : Row :=
  {| row_sender := name; row_sender_type := None;
     row_latitude := 34.0; row_longitude := (-118.0);
     row_altitude := None; row_speed := None; row_course := None;
     row_timestamp := stamp; row_gps_time := None; row_fix_type := None;
     row_satellites := None; row_emergency := None; row_protocol := None |}.

(** A collection report with two points, the second out of range,
    followed by a single-point report. *)
Definition report_collection : ET.Element :=
  node "nalGpsReport3"
    [ node "point" [leaf "lat" "34.5"; leaf "lng" "-118.25";
                    leaf "alt" "120"; leaf "emer" "1"];
      node "point" [leaf "lat" "95.0"; leaf "lng" "10"] ]%string.

Definition doc_collection : ET.Element :=
  node "data"
    [ node "meta"
        [ ET.Elem "sender" [("type", "IMEI")] (Some "300234") [];
          leaf "time" "t0" ];
      report_collection;
      node "nalGpsReport5" [leaf "lat" "10"; leaf "lng" "10"] ]%string.

(** An empty sender element and no time element. *)
Definition doc_anonymous : ET.Element :=
  node "data"
    [ node "meta" [ET.Elem "sender" [] None []];
      node "nalGpsReport5" [leaf "lat" "10"; leaf "lng" "10"] ]%string.

(** No section with a known report name. *)
Definition doc_unknown_report : ET.Element :=
  node "data"
    [ node "meta" [leaf "sender" "300234"];
      leaf "status" "ok" ]%string.

Definition xml_collection : string :=
  "<data><meta><sender type='IMEI'>300234</sender><time>t0</time></meta><nalGpsReport3><point><lat>34.5</lat><lng>-118.25</lng><alt>120</alt><emer>1</emer></point><point><lat>95.0</lat><lng>10</lng></point></nalGpsReport3><nalGpsReport5><lat>10</lat><lng>10</lng></nalGpsReport5></data>".

Definition xml_anonymous : string :=
  "<data><meta><sender/></meta><nalGpsReport5><lat>10</lat><lng>10</lng></nalGpsReport5></data>".

Definition xml_unknown_report : string :=
  "<data><meta><sender>300234</sender></meta><status>ok</status></data>".

(** The sample messages with their element trees. *)
Definition documents : list (string * ET.Element) :=
  [ (xml_collection, doc_collection);
    (xml_anonymous, doc_anonymous);
    (xml_unknown_report, doc_unknown_report) ].

Definition floats : list (string * float) :=
  [ ("34.5", 34.5); ("-118.25", (-118.25)); ("95.0", 95.0);
    ("10", 10.0); ("120", 120.0) ]%string%float.

Definition lookup {A} (table : list (string * A)) (key : string) : option A :=
  snd <$> List.find (fun kv => String.eqb (fst kv) key) table.

(** A runtime defined on the sample texts only: every other text is
    rejected. *)
Definition runtime : PyRuntime :=
  {| ET_fromstring := lookup documents;
     py_float := fun t => t ≫= lookup floats;
     py_int := fun _ => None |}.

(** An emergency fix followed by a later fix without the flag set. *)
Definition flagged_then_clear : TrackerState :=
  {| gps_data :=
       {[ Some "balloon"%string :=
            [reading "balloon" None (Some true);
             reading "balloon" None (Some false)] ]};
     latest_positions :=
       {[ Some "balloon"%string := reading "balloon" None (Some false) ]} |}.

(** Eight fixes of one sender, numbered by their altitude. *)
Definition eight_fixes : list Point :=
  map (fun a => reading "balloon" (Some a) None)
      [1.0; 2.0; 3.0; 4.0; 5.0; 6.0; 7.0; 8.0]%float.

(** Two rows in sender order, the first with the empty string as
    sender. *)
Definition rows_with_empty_sender : list Row :=
  [row "" "2025-09-02T10:00:00"; row "balloon" "2025-09-02T10:01:00"].

Definition climb_5_04 : list Point :=
  [reading "balloon" (Some 100.0%float) None;
   reading "balloon" (Some 105.04%float) None].

End Sample.

(** ** Predicates of the statements *)

(** [lat] in [-90, 90] and [lng] in [-180, 180], as double comparisons. *)
Definition in_range (p : Point) : Prop :=
  PrimFloat.leb (-90) (lat p) = true /\ PrimFloat.leb (lat p) 90 = true /\
  PrimFloat.leb (-180) (lng p) = true /\ PrimFloat.leb (lng p) 180 = true.

Definition all_in_range (st : TrackerState) : Prop :=
  (forall s h p, gps_data st !! s = Some h -> p ∈ h -> in_range p) /\
  (forall s p, latest_positions st !! s = Some p -> in_range p).

(** The last [max_points] records of a list: the sliding window. *)
Definition window (max_points : Z) (l : list Point) : list Point :=
  drop (length l - Z.to_nat max_points) l.

(** The records of one sender in a stream, in arrival order. *)
Definition records_of (s : option string) (pts : list Point) : list Point :=
  filter (fun p => sender p = s) pts.

(** Every history is non-empty, within the cap, and ends with the sender's
    latest position. *)
Definition store_inv (max_points : Z) (st : TrackerState) : Prop :=
  forall s h,
    gps_data st !! s = Some h ->
    h <> [] /\ Z.of_nat (length h) <= max_points /\
    latest_positions st !! s = last h.

(** The state [install_sender] reaches when the cap is at least 1: a
    non-empty run of a truthy sender is cut to the cap and installed with
    its last record as latest position; anything else is skipped. *)
Definition installed (max_points : Z) (st : TrackerState)
    (current_sender : option string) (points_for_sender : list Point)
  : TrackerState :=
  match last points_for_sender with
  | Some latest =>
      if Py.truthy current_sender then
        {| gps_data :=
             <[current_sender := window max_points points_for_sender]>
               (gps_data st);
           latest_positions :=
             <[current_sender := latest]> (latest_positions st) |}
      else st
  | None => st
  end.

(** Replaying records through [store_gps_data], one call per record. *)
Definition replay (max_points : Z) (st : TrackerState) (pts : list Point)
  : TrackerState :=
  foldl (fun st p => store_gps_data max_points st [p]) st pts.

(** Rows of one sender are next to each other, as in a list ordered by
    sender. *)
Definition grouped (senders : list string) : Prop :=
  forall i j k s,
    (i <= k <= j)%nat ->
    senders !! i = Some s -> senders !! j = Some s -> senders !! k = Some s.

(** ** The receive loop of [listen] *)

(** What one [self.socket.recv(8192).decode(...)] gives.  [Received]
    holds the text of that one read after it has been decoded: each read
    is decoded on its own, dropping the bytes that do not decode, so the
    texts of two reads joined are the text of the joined bytes only when
    the cut does not fall inside a multi-byte character. *)
Inductive recv_result :=
| Received (data : string)   (* the decoded data, empty when the peer closed *)
| TimedOut                   (* [socket.timeout] *)
| Failed.                    (* any other exception *)

Section Listen.
Context `{PyRuntime}.
Variable max_points_per_sender : Z.
Variable target_sender : option string.

(** The outer [while] of [listen] over the results of the successive
    [recv] calls; the loop condition turning false is the end of the list.
    Each inner loop gets [fuel] iterations, and [None] means that one of
    them is still running.  The messages of one [recv] are parsed and
    stored in the order they are framed; the handlers are taken not to
    raise (no [socketio] failure).  The result is the store and the local
    [buffer] when the loop is left. *)
Fixpoint listen (fuel : nat) (received : list recv_result)
    (buffer : string) (st : TrackerState) : option (TrackerState * string) :=
  match received with
  | [] => Some (st, buffer)
  | Received data :: received' =>
      if String.eqb data "" then Some (st, buffer)
      else
        match Framer.feed fuel buffer data with
        | None => None
        | Some (msgs, buffer') =>
            listen fuel received' buffer'
              (foldl (handle_message max_points_per_sender target_sender)
                 st msgs)
        end
  | TimedOut :: received' => listen fuel received' buffer st
  | Failed :: _ => Some (st, buffer)
  end.

End Listen.

(** ** Marker selection in [create_map_html] *)

Definition max_markers : nat := 20.

(** [range(start, stop, step)] for a positive [step]. *)
Definition py_range (start stop step : nat) : list nat :=
  map (fun k => start + k * step)%nat
      (seq 0 ((stop - start + (step - 1)) / step)).

(** The indices [i] with [point.get('emergency') is True]. *)
Definition emergency_indices (sorted_points : list Point) : list nat :=
  omap (fun ip => if bool_decide (emergency ip.2 = Some true)
                  then Some ip.1 else None)
       (imap (fun i point => (i, point)) sorted_points).

(** The set [show_idx] built for the points of one sender. *)
Definition show_idx (sorted_points : list Point) : gset nat :=
  let n := length sorted_points in
  let ends : gset nat :=
    if (0 <? n)%nat then {[ 0%nat ]} ∪ {[ (n - 1)%nat ]} else ∅ in
  let emergencies : gset nat := list_to_set (emergency_indices sorted_points) in
  let sampled : gset nat :=
    if (max_markers <? n)%nat then
      let step := Nat.max 1 (n / (max_markers - 2)) in
      list_to_set (py_range 1 (n - 1) step)
    else ∅ in
  ends ∪ emergencies ∪ sampled.

(** The indices that get a [folium.Marker], in the order of the second
    [enumerate] loop. *)
Definition marker_indices (sorted_points : list Point) : list nat :=
  filter (fun i => i ∈ show_idx sorted_points)
         (seq 0 (length sorted_points)).

(** ** The tuple bound by the INSERT of [_store_to_database] *)

(** In the column order of the statement; [True] and [False] are bound
    as the integers 1 and 0. *)
Record InsertParams := {
  ip_sender : option string;
  ip_sender_type : option string;
  ip_latitude : float;
  ip_longitude : float;
  ip_altitude : option float;
  ip_speed : option float;
  ip_course : option float;
  ip_timestamp : option string;
  ip_gps_time : option string;
  ip_fix_type : option string;
  ip_satellites : option Z;
  ip_emergency : Z;
  ip_protocol : option string
}.

Definition insert_params (point : Point) : InsertParams :=
  {| ip_sender := sender point;
     ip_sender_type := sender_type point;
     ip_latitude := lat point;
     ip_longitude := lng point;
     ip_altitude := altitude point;
     ip_speed := speed point;
     ip_course := course point;
     ip_timestamp := timestamp point;
     ip_gps_time := gps_time point;
     ip_fix_type := fix_type point;
     ip_satellites := satellites point;
     ip_emergency := Z.b2z (default false (emergency point));
     ip_protocol := protocol point |}.

(** A row of the SELECT that holds, column by column, the values bound
    by an INSERT. *)
Definition row_holds (row : Row) (params : InsertParams) : Prop :=
  Some (row_sender row) = ip_sender params /\
  row_sender_type row = ip_sender_type params /\
  row_latitude row = ip_latitude params /\
  row_longitude row = ip_longitude params /\
  row_altitude row = ip_altitude params /\
  row_speed row = ip_speed params /\
  row_course row = ip_course params /\
  Some (row_timestamp row) = ip_timestamp params /\
  row_gps_time row = ip_gps_time params /\
  row_fix_type row = ip_fix_type params /\
  row_satellites row = ip_satellites params /\
  row_emergency row = Some (ip_emergency params) /\
  row_protocol row = ip_protocol params.

(** ** [Config.validate] *)

Record Config := {
  GPS_PORT : Z;
  WEB_PORT : Z;
  MAX_POINTS_PER_SENDER : Z
}.

(** [inl msg] is [raise ValueError(msg)], [inr true] is [return True]. *)
Definition validate (cls : Config) : string + bool :=
  if (GPS_PORT cls <? 1) || (GPS_PORT cls >? 65535) then
    inl "GPS_PORT must be between 1 and 65535"%string
  else if (WEB_PORT cls <? 1) || (WEB_PORT cls >? 65535) then
    inl "WEB_PORT must be between 1 and 65535"%string
  else if MAX_POINTS_PER_SENDER cls <? 1 then
    inl "MAX_POINTS_PER_SENDER must be greater than 0"%string
  else inr true.

(** ** More predicates and sample data *)

(** The two dictionaries have the same keys. *)
Definition same_senders (st : TrackerState) : Prop :=
  forall s, is_Some (gps_data st !! s) <-> is_Some (latest_positions st !! s).

(** [sub] starts at index [i] of [s]. *)
Definition occurs_at (sub s : string) (i : nat) : Prop :=
  String.substring i (String.length sub) s = sub.

Module Fixture.

(** A fix with every optional key set, as read from a message. *)
Definition full_fix : Point :=
  {| sender := Some "300234"%string; sender_type := Some "IMEI"%string;
     lat := 34.5; lng := (-118.25);
     timestamp := Some "2025-09-02T10:00:00"%string;
     protocol := Some "nal"%string;
     altitude := Some 120.0%float; speed := Some 12.5%float;
     course := Some 270.0%float; gps_time := Some "10:00:00"%string;
     fix_type := Some "3D"%string; satellites := Some 9;
     emergency := None |}.

Definition full_row : Row :=
  {| row_sender := "300234"; row_sender_type := Some "IMEI"%string;
     row_latitude := 34.5; row_longitude := (-118.25);
     row_altitude := Some 120.0%float; row_speed := Some 12.5%float;
     row_course := Some 270.0%float;
     row_timestamp := "2025-09-02T10:00:00";
     row_gps_time := Some "10:00:00"%string; row_fix_type := Some "3D"%string;
     row_satellites := Some 9; row_emergency := Some 0;
     row_protocol := Some "nal"%string |}.

(** <data><meta><sender>300234</sender></meta>
      <nalGpsReport5><lat>nan</lat><lng>10</lng><alt>high</alt>
      </nalGpsReport5></data> *)
Definition xml_nan : string :=
  "<data><meta><sender>300234</sender></meta><nalGpsReport5><lat>nan</lat><lng>10</lng><alt>high</alt></nalGpsReport5></data>".

Definition report_nan : ET.Element :=
  Sample.node "nalGpsReport5"
    [Sample.leaf "lat" "nan"; Sample.leaf "lng" "10"; Sample.leaf "alt" "high"].

Definition doc_nan : ET.Element :=
  Sample.node "data"
    [ Sample.node "meta" [Sample.leaf "sender" "300234"]; report_nan ].

(** The same report with a latitude in range; its altitude does not
    convert. *)
Definition report_bad_altitude : ET.Element :=
  Sample.node "nalGpsReport5"
    [Sample.leaf "lat" "34.5"; Sample.leaf "lng" "10"; Sample.leaf "alt" "high"].

Definition report_no_altitude : ET.Element :=
  Sample.node "nalGpsReport5"
    [Sample.leaf "lat" "34.5"; Sample.leaf "lng" "10"].

(** A runtime on a few texts, with the not-a-number text of [float]. *)
Definition runtime : PyRuntime :=
  {| ET_fromstring :=
       fun xml_data =>
         if String.eqb xml_data xml_nan then Some doc_nan
         else ET_fromstring (PyRuntime := Sample.runtime) xml_data;
     py_float :=
       fun t =>
         if bool_decide (t = Some "nan"%string) then Some PrimFloat.nan
         else py_float (PyRuntime := Sample.runtime) t;
     py_int := fun _ => None |}.

(** Three rows in sender order. *)
Definition rows : list Row :=
  [ Sample.row "balloon" "2025-09-02T10:00:00";
    Sample.row "balloon" "2025-09-02T10:01:00";
    Sample.row "chase-car" "2025-09-02T10:00:30" ].

End Fixture.

(** * Properties *)

(** ** Python list and string helpers *)

Lemma list_slice_from_neg {A} (l : list A) (n : Z) :
  0 < n -> Py.list_slice_from l (- n) = drop (length l - Z.to_nat n) l.
Proof.
  intros Hn. unfold Py.list_slice_from, Py.clamp.
  destruct (Z.ltb_spec (- n) 0) as [_|]; [|lia].
  f_equal. lia.
Qed.

Lemma list_last_snoc {A} (l : list A) (x : A) : Py.list_last (l ++ [x]) = Some x.
Proof. apply last_snoc. Qed.

(** ** Stream framer *)

Lemma process_buffer_skip (buffer : string) :
  Framer.listen_iteration buffer = Framer.Skip ->
  forall fuel, Framer.process_buffer fuel buffer = None.
Proof.
  intros Hskip fuel. induction fuel as [|fuel IH]; [reflexivity|].
  simpl. rewrite Hskip. exact IH.
Qed.

Lemma substring_length_le (n m : nat) (s : string) :
  (String.length (String.substring n m s) <= m)%nat.
Proof.
  revert n m. induction s as [|c s IH]; intros [|n] [|m]; simpl; try lia.
  - specialize (IH 0%nat m). lia.
  - apply (IH n 0%nat).
  - apply (IH n (S m)).
Qed.

Lemma str_find_lower_bound (sub s : string) (start : Z) :
  -1 <= Py.str_find sub s start.
Proof. unfold Py.str_find. destruct (String.index _ sub s); lia. Qed.

(** The branch that emits a message shortens the buffer. *)
Lemma listen_iteration_emit_shrinks (buffer xml_message buffer' : string) :
  Framer.listen_iteration buffer = Framer.Emit xml_message buffer' ->
  (String.length buffer' < String.length buffer)%nat.
Proof.
  unfold Framer.listen_iteration.
  destruct (Py.str_in Framer.open_tag buffer) eqn:Hopen; [|discriminate].
  destruct (Py.str_in Framer.close_tag buffer); [|discriminate].
  simpl andb. cbv zeta.
  pose proof (str_find_lower_bound Framer.open_tag buffer 0) as Hstart.
  set (start := Py.str_find Framer.open_tag buffer 0) in *.
  set (end_ := Py.str_find Framer.close_tag buffer start + 7).
  destruct (Z.eqb_spec start (-1)) as [|Hfound]; [discriminate|].
  destruct (Z.gtb_spec end_ start) as [Hgt|]; [|discriminate].
  simpl. intros Hemit. injection Hemit as _ <-.
  assert (Hlen : (0 < String.length buffer)%nat).
  { destruct buffer; [discriminate Hopen|simpl; lia]. }
  unfold Py.str_slice_from, Py.str_slice, Py.clamp.
  destruct (Z.ltb_spec end_ 0) as [|_]; [lia|].
  destruct (Z.ltb_spec (Z.of_nat (String.length buffer)) 0) as [|_]; [lia|].
  eapply Nat.le_lt_trans; [apply substring_length_le|]. lia.
Qed.

(** A buffer that runs into the idle iteration never leaves the loop. *)
Lemma spins_forever (buffer : string) :
  Framer.spins buffer -> forall fuel, Framer.process_buffer fuel buffer = None.
Proof.
  induction 1 as [buffer Hskip|buffer msg buffer' Hemit _ IH]; intros fuel.
  - apply process_buffer_skip, Hskip.
  - destruct fuel as [|fuel]; [reflexivity|].
    simpl. rewrite Hemit, IH. reflexivity.
Qed.

(** Every other buffer is done within one iteration per character: the
    loop returns its messages and the rest of the buffer. *)
Lemma process_buffer_exits_or_spins (fuel : nat) (buffer : string) :
  (String.length buffer < fuel)%nat ->
  (exists msgs rest, Framer.process_buffer fuel buffer = Some (msgs, rest)) \/
  Framer.spins buffer.
Proof.
  revert buffer. induction fuel as [|fuel IH]; intros buffer Hfuel; [lia|].
  simpl. destruct (Framer.listen_iteration buffer) as [|msg buffer'|] eqn:Hit.
  - left. eauto.
  - pose proof (listen_iteration_emit_shrinks _ _ _ Hit) as Hshrink.
    destruct (IH buffer') as [(msgs & rest & ->)|Hspins]; [lia| |].
    + left. eauto.
    + right. eapply Framer.spins_later; eauto.
  - right. apply Framer.spins_here, Hit.
Qed.

(** C1 (fails on the code): after [recv] delivers the thirteen characters
    of a closing tag followed by an opening tag, the message loop of
    [listen] has not exited after any number of iterations: both tags are
    in the buffer, the search for a closing tag after the opening tag
    finds none, the guarded branch is not taken and the buffer is left as
    it is. *)
Theorem listen_loop_never_exits :
  Framer.listen_iteration "</data><data>" = Framer.Skip /\
  forall fuel, Framer.feed fuel "" "</data><data>" = None.
Proof.
  split; [reflexivity|].
  intros fuel. unfold Framer.feed. simpl String.append.
  apply process_buffer_skip. reflexivity.
Qed.

Example framer_split_chunks :
  Framer.feed 5 "" "<data><meta>x</me" = Some ([], "<data><meta>x</me"%string) /\
  Framer.feed 5 "<data><meta>x</me" "ta></data><da" =
    Some (["<data><meta>x</meta></data>"%string], "<da"%string).
Proof. split; reflexivity. Qed.

(** ** Summarizer *)

Example round1_samples :
  Py.round1 2.675 = 2.7%float /\ Py.round1 0.25 = 0.2%float /\
  Py.round1 0.35 = 0.3%float /\ Py.round1 0.45 = 0.5%float /\
  Py.round1 1234.5678 = 1234.6%float /\ Py.round1 (-20) = (-20)%float /\
  Py.round1 5.05 = 5%float /\ Py.round1 1e300 = 1e300%float /\
  Py.round1 4503599627370497.5 = 4503599627370498%float.
Proof. vm_compute. repeat split. Qed.

(** The three cases of [tests/test_gps_web_tracker.py]. *)
Example test_calculate_altitude_trend :
  let run alts :=
    _calculate_altitude_trend
      (map (fun a => Sample.reading "b" (Some a) None) alts) in
  (trend (run [500.0; 502.0; 498.0]%float) = "stable"%string /\
   current_altitude (run [500.0; 502.0; 498.0]%float) = Some 498.0%float) /\
  (trend (run [100.0; 110.0; 120.0]%float) = "rising"%string /\
   current_altitude (run [100.0; 110.0; 120.0]%float) = Some 120.0%float) /\
  (trend (run [200.0; 190.0; 180.0]%float) = "falling"%string /\
   current_altitude (run [200.0; 190.0; 180.0]%float) = Some 180.0%float /\
   change (run [200.0; 190.0; 180.0]%float) = (-20.0)%float).
Proof. vm_compute. repeat split. Qed.

Lemma head_last_of_two {A} (l : list A) :
  (2 <= length l)%nat -> exists a b, head l = Some a /\ last l = Some b.
Proof.
  destruct l as [|a l]; simpl; [lia|]. intros _.
  exists a. destruct (last (a :: l)) as [b|] eqn:E; [eauto|].
  apply last_None in E. discriminate.
Qed.

Lemma recent_points_spec (points : list Point) :
  (if Z.of_nat (length points) >=? 5
   then Py.list_slice_from points (-5) else points)
  = AltitudeSpec.last_records points.
Proof.
  unfold AltitudeSpec.last_records.
  destruct (Z.geb_spec (Z.of_nat (length points)) 5) as [Hge|Hlt].
  - change (-5) with (- (5)). rewrite list_slice_from_neg by lia.
    f_equal. lia.
  - replace (length points - Nat.min 5 (length points))%nat with 0%nat by lia.
    reflexivity.
Qed.

(** C4 (as amended): for every history, [_calculate_altitude_trend]
    returns: the latest altitude rounded to one decimal as current
    altitude (absent when the latest record has none); "stable" and 0.0
    when there are fewer than 2 records or fewer than 2 altitudes among the
    last min(5, count) records; otherwise the last collected altitude minus
    the first, rounded to one decimal, as change, and the trend decided by
    comparing that difference before rounding with 5.0 and -5.0. *)
Theorem calculate_altitude_trend_unrounded (points : list Point) :
  _calculate_altitude_trend points = AltitudeSpec.altitude_trend_unrounded points.
Proof.
  unfold _calculate_altitude_trend, AltitudeSpec.altitude_trend_unrounded,
    AltitudeSpec.too_few, AltitudeSpec.current, AltitudeSpec.difference,
    AltitudeSpec.collected, Py.list_last.
  rewrite recent_points_spec.
  destruct (last points) as [latest|] eqn:Hlast.
  - destruct (Z.ltb_spec (Z.of_nat (length points)) 2) as [Hp|Hp].
    + replace (length points <? 2)%nat with true
        by (symmetry; apply Nat.ltb_lt; lia).
      reflexivity.
    + replace (length points <? 2)%nat with false
        by (symmetry; apply Nat.ltb_ge; lia).
      simpl orb.
      set (altitudes := omap altitude (AltitudeSpec.last_records points)).
      destruct (Z.ltb_spec (Z.of_nat (length altitudes)) 2) as [Ha|Ha].
      * replace (length altitudes <? 2)%nat with true
          by (symmetry; apply Nat.ltb_lt; lia).
        reflexivity.
      * replace (length altitudes <? 2)%nat with false
          by (symmetry; apply Nat.ltb_ge; lia).
        destruct (head_last_of_two altitudes) as (a & b & Ha0 & Hb0); [lia|].
        rewrite Ha0, Hb0. reflexivity.
  - apply last_None in Hlast. subst points. reflexivity.
Qed.

(** C4 (as stated, refuted): on the altitudes 100.0 and 105.04 the
    difference 5.0400000000000063 exceeds the threshold, so the code says
    "rising", while the reported change is 5.0, which is not above 5.0:
    the rule read off the rounded change says "stable". *)
Lemma altitude_trend_rounded_change_differs :
  change (_calculate_altitude_trend Sample.climb_5_04) = 5.0%float /\
  trend (_calculate_altitude_trend Sample.climb_5_04) = "rising"%string /\
  trend (AltitudeSpec.altitude_trend Sample.climb_5_04) = "stable"%string /\
  _calculate_altitude_trend Sample.climb_5_04
    <> AltitudeSpec.altitude_trend Sample.climb_5_04.
Proof.
  repeat split; try (vm_compute; reflexivity).
  intros Heq. apply (f_equal trend) in Heq. vm_compute in Heq. discriminate.
Qed.

Lemma summarize_sender_snoc (earlier : list Point) (latest : Point) :
  exists entry,
    summarize_sender (earlier ++ [latest]) = Some entry /\
    emergency_active entry = default false (emergency latest) /\
    latest_position entry = (lat latest, lng latest) /\
    latest_time entry = timestamp latest.
Proof.
  unfold summarize_sender. rewrite list_last_snoc.
  eexists. repeat split.
Qed.

(** C9: in the summary of a sender whose history ends with [latest],
    [emergency_active] is the emergency flag of [latest] ([False] when the
    key is not set), whatever the flags of the earlier records are. *)
Theorem summary_emergency_of_latest (st : TrackerState) (s : option string)
    (earlier : list Point) (latest : Point) :
  gps_data st !! s = Some (earlier ++ [latest]) ->
  exists entry,
    get_sender_summary st !! s = Some entry /\
    emergency_active entry = default false (emergency latest).
Proof.
  intros Hs. unfold get_sender_summary. rewrite lookup_omap, Hs. simpl.
  destruct (summarize_sender_snoc earlier latest) as (entry & He & Hact & _).
  exists entry. split; assumption.
Qed.

Lemma summary_emergency_of_latest_witness :
  exists entry,
    get_sender_summary Sample.flagged_then_clear !! Some "balloon"%string
      = Some entry /\
    emergency_active entry = false.
Proof.
  apply (summary_emergency_of_latest Sample.flagged_then_clear
           (Some "balloon"%string)
           [Sample.reading "balloon" None (Some true)]
           (Sample.reading "balloon" None (Some false))).
  apply lookup_singleton_eq.
Defined.

(** ** Report extractor *)

Section ExtractorFacts.
Context `{PyRuntime}.

Lemma valid_coordinates_in_range (p : Point) :
  valid_coordinates (lat p) (lng p) = true -> in_range p.
Proof.
  unfold valid_coordinates, in_range. intros Hv.
  repeat (apply andb_prop in Hv as [Hv ?]). auto.
Qed.

Lemma extract_gps_point_fields element s st ts pr (p : Point) :
  _extract_gps_point element s st ts pr = Some p ->
  in_range p /\ sender p = s /\ sender_type p = Some st /\
  timestamp p = ts /\ protocol p = pr.
Proof.
  unfold _extract_gps_point. intros Hp.
  destruct (ET.find "lat" element); [|discriminate].
  destruct (ET.find "lng" element); [|discriminate].
  destruct (py_float _) as [la|]; [|discriminate].
  destruct (py_float _) as [ln|]; [|discriminate].
  destruct (valid_coordinates la ln) eqn:Hv; simpl in Hp; [|discriminate].
  injection Hp as <-. simpl.
  split; [apply valid_coordinates_in_range; exact Hv|auto].
Qed.

Lemma extract_report_elem t report s st ts pr (p : Point) :
  p ∈ extract_report t report s st ts pr ->
  exists element, _extract_gps_point element s st ts pr = Some p.
Proof.
  unfold extract_report. destruct (is_collection t).
  - intros Hp. apply list_elem_of_omap in Hp as (element & _ & He). eauto.
  - destruct (_extract_gps_point report s st ts pr) as [q|] eqn:Hq.
    + intros Hp. apply list_elem_of_singleton in Hp as ->. eauto.
    + intros Hp. inversion Hp.
Qed.

Lemma scan_report_types_elem types root s st ts pr (p : Point) :
  p ∈ scan_report_types types root s st ts pr ->
  exists element, _extract_gps_point element s st ts pr = Some p.
Proof.
  induction types as [|t types IH]; simpl.
  - intros Hp. inversion Hp.
  - destruct (ET.find t root); [apply extract_report_elem|exact IH].
Qed.

(** The report types tried before the first one found play no part, and
    those after it are not looked at. *)
Lemma scan_report_types_first earlier t later root report s st ts pr :
  (forall t', t' ∈ earlier -> ET.find t' root = None) ->
  ET.find t root = Some report ->
  scan_report_types (earlier ++ t :: later) root s st ts pr
  = extract_report t report s st ts pr.
Proof.
  intros Hearlier Ht. induction earlier as [|t0 earlier IH]; simpl.
  - rewrite Ht. reflexivity.
  - rewrite (Hearlier t0) by apply list_elem_of_here.
    apply IH. intros t' Ht'. apply Hearlier. by apply list_elem_of_further.
Qed.

Lemma scan_report_types_none types root s st ts pr :
  (forall t, t ∈ types -> ET.find t root = None) ->
  scan_report_types types root s st ts pr = [].
Proof.
  intros Hnone. induction types as [|t types IH]; simpl; [reflexivity|].
  rewrite (Hnone t) by apply list_elem_of_here.
  apply IH. intros t' Ht'. apply Hnone. by apply list_elem_of_further.
Qed.

(** What a returned list says about the message. *)
Lemma parse_gps_data_Some target xml_data (pts : list Point) :
  parse_gps_data target xml_data = Some pts ->
  exists root meta sender_elem,
    ET_fromstring xml_data = Some root /\
    ET.find "meta" root = Some meta /\
    ET.find "sender" meta = Some sender_elem /\
    (Py.truthy target = true -> ET.text sender_elem = target) /\
    pts = scan_report_types report_types root
            (ET.text sender_elem) (ET.get sender_elem "type" "Unknown")
            (ET.find "time" meta ≫= ET.text)
            (ET.find "protocol" meta ≫= ET.text).
Proof.
  unfold parse_gps_data. intros Hp.
  destruct (ET_fromstring xml_data) as [root|] eqn:Hroot; [|discriminate].
  destruct (ET.find "meta" root) as [meta|] eqn:Hmeta; [|discriminate].
  destruct (ET.find "sender" meta) as [sender_elem|] eqn:Hsender; [|discriminate].
  exists root, meta, sender_elem.
  do 3 (split; [assumption || reflexivity|]). split.
  - intros Ht. rewrite Ht in Hp. simpl in Hp.
    destruct (bool_decide_reflect (ET.text sender_elem = target)); [assumption|].
    discriminate.
  - destruct (_ && _); [discriminate|]. injection Hp as <-.
    destruct (ET.find "time" meta), (ET.find "protocol" meta); reflexivity.
Qed.

Lemma limit_points_elem max_points (l : list Point) (p : Point) :
  p ∈ limit_points max_points l -> p ∈ l.
Proof.
  unfold limit_points, Py.list_slice_from.
  destruct (_ >? _); [|auto].
  intros Hp. apply list_elem_of_lookup in Hp as [i Hi].
  rewrite lookup_drop in Hi. apply list_elem_of_lookup. eauto.
Qed.

Lemma store_point_in_range max_points st (p : Point) :
  in_range p -> all_in_range st -> all_in_range (store_point max_points st p).
Proof.
  intros Hp [Hhist Hlatest]. unfold store_point. split; simpl.
  - intros s h q Hs Hq. destruct (decide (sender p = s)) as [<-|Hne].
    + rewrite lookup_insert_eq in Hs. injection Hs as <-.
      apply limit_points_elem in Hq. apply elem_of_app in Hq as [Hq|Hq].
      * destruct (gps_data st !! sender p) as [h|] eqn:Hh; simpl in Hq.
        -- eapply Hhist; eauto.
        -- inversion Hq.
      * apply list_elem_of_singleton in Hq as ->. exact Hp.
    + rewrite lookup_insert_ne in Hs by assumption. eapply Hhist; eauto.
  - intros s q Hs. destruct (decide (sender p = s)) as [<-|Hne].
    + rewrite lookup_insert_eq in Hs. injection Hs as <-. exact Hp.
    + rewrite lookup_insert_ne in Hs by assumption. eapply Hlatest; eauto.
Qed.

Lemma foldl_store_point_in_range max_points (pts : list Point) st :
  (forall p, p ∈ pts -> in_range p) -> all_in_range st ->
  all_in_range (foldl (store_point max_points) st pts).
Proof.
  revert st. induction pts as [|p pts IH]; intros st Hpts Hst; simpl; [exact Hst|].
  apply IH.
  - intros q Hq. apply Hpts. by apply list_elem_of_further.
  - apply store_point_in_range; [|exact Hst]. apply Hpts, list_elem_of_here.
Qed.

End ExtractorFacts.

(** C2: every record in the list returned by [parse_gps_data] has its
    [lat] in [-90, 90] and its [lng] in [-180, 180]; and a store that holds
    only such records still holds only such records after the message has
    gone through [parse_gps_data] and [store_gps_data]. *)
Theorem extracted_coordinates_in_range `{PyRuntime}
    (target : option string) (xml_data : string) (pts : list Point) :
  parse_gps_data target xml_data = Some pts ->
  (forall p, p ∈ pts -> in_range p) /\
  (forall max_points st,
      all_in_range st ->
      all_in_range (handle_message max_points target st xml_data)).
Proof.
  intros Hparse.
  assert (Hpts : forall p, p ∈ pts -> in_range p).
  { intros p Hp.
    apply parse_gps_data_Some in Hparse as (root & meta & se & _ & _ & _ & _ & ->).
    apply scan_report_types_elem in Hp as [element He].
    apply extract_gps_point_fields in He. tauto. }
  split; [exact Hpts|].
  intros max_points st Hst. unfold handle_message. rewrite Hparse.
  destruct pts as [|p pts]; [exact Hst|].
  unfold store_gps_data. apply foldl_store_point_in_range; assumption.
Qed.

Lemma extracted_coordinates_in_range_witness :
  exists p,
    @parse_gps_data Sample.runtime None Sample.xml_collection = Some [p] /\
    in_range p.
Proof.
  eexists. split; [vm_compute; reflexivity|].
  apply (@extracted_coordinates_in_range Sample.runtime None
           Sample.xml_collection _ eq_refl).
  apply list_elem_of_here.
Defined.

(** X26: once the message has parsed, a message without a
    [meta] section or without a [sender] element in it returns [None];
    otherwise every record of the returned list carries as [sender] the
    text of [meta/sender] and as [timestamp] the text of [meta/time], each
    of them [None] when the element has no text (and the timestamp also
    when there is no [time] element). *)
Theorem extracted_sender_timestamp_from_meta `{PyRuntime}
    (target : option string) (xml_data : string) (root : ET.Element) :
  ET_fromstring xml_data = Some root ->
  match ET.find "meta" root with
  | None => parse_gps_data target xml_data = None
  | Some meta =>
      match ET.find "sender" meta with
      | None => parse_gps_data target xml_data = None
      | Some sender_elem =>
          forall pts p,
            parse_gps_data target xml_data = Some pts -> p ∈ pts ->
            sender p = ET.text sender_elem /\
            timestamp p = ET.find "time" meta ≫= ET.text
      end
  end.
Proof.
  intros Hroot.
  destruct (ET.find "meta" root) as [meta|] eqn:Hmeta.
  - destruct (ET.find "sender" meta) as [sender_elem|] eqn:Hsender.
    + intros pts p Hparse Hp.
      apply parse_gps_data_Some in Hparse
        as (root' & meta' & se' & Hroot' & Hmeta' & Hsender' & _ & ->).
      rewrite Hroot in Hroot'. injection Hroot' as <-.
      rewrite Hmeta in Hmeta'. injection Hmeta' as <-.
      rewrite Hsender in Hsender'. injection Hsender' as <-.
      apply scan_report_types_elem in Hp as [element He].
      apply extract_gps_point_fields in He. tauto.
    + unfold parse_gps_data. rewrite Hroot, Hmeta, Hsender. reflexivity.
  - unfold parse_gps_data. rewrite Hroot, Hmeta. reflexivity.
Qed.

Lemma extracted_sender_timestamp_from_meta_witness :
  exists p,
    @parse_gps_data Sample.runtime None Sample.xml_collection = Some [p] /\
    sender p = Some "300234"%string /\ timestamp p = Some "t0"%string.
Proof.
  eexists. split; [vm_compute; reflexivity|].
  apply (@extracted_sender_timestamp_from_meta Sample.runtime None
           Sample.xml_collection Sample.doc_collection eq_refl _ _ eq_refl).
  apply list_elem_of_here.
Defined.

(** C7 (fails on the code): a message whose [sender] element is empty and
    which has no [time] element yields a record whose [sender] and
    [timestamp] are both [None]: the guard on the sender tests the
    element, not its text, and a missing time is read as [None].  The
    record is kept in memory under the key [None], and the INSERT of
    [_store_to_database] binds [None] to the two columns the table
    declares [NOT NULL]. *)
Theorem extracted_record_without_sender_and_timestamp :
  exists p,
    @parse_gps_data Sample.runtime None Sample.xml_anonymous = Some [p] /\
    sender p = None /\ timestamp p = None /\
    ip_sender (insert_params p) = None /\
    ip_timestamp (insert_params p) = None /\
    gps_data (@handle_message Sample.runtime 1000 None empty_state
                Sample.xml_anonymous) !! None = Some [p].
Proof.
  eexists. split; [vm_compute; reflexivity|].
  repeat split; vm_compute; reflexivity.
Qed.

Lemma omap_length_all {A B} (f : A -> option B) (l : list A) :
  (forall x, x ∈ l -> is_Some (f x)) -> length (omap f l) = length l.
Proof.
  induction l as [|x l IH]; intros Hall; [reflexivity|].
  simpl. destruct (Hall x) as [y ->]; [apply list_elem_of_here|].
  simpl. f_equal. apply IH. intros z Hz. apply Hall. by apply list_elem_of_further.
Qed.

(** C8 (as amended): [report_types] is the fixed list of the eight
    names; when [t] is the first of them with a section in the message,
    whatever sections there are for the names listed after it, the
    returned records come from that section alone: for nalGpsReport3 and
    nalGpsReport4 the records extracted from its [point] children, each on
    its own and in document order, a child that does not pass
    [_extract_gps_point] giving none (so one record per child when every
    child passes), and for any other name at most one record, extracted
    from the section itself. *)
Theorem first_report_type_only `{PyRuntime}
    (target : option string) (xml_data : string) (pts : list Point)
    (root report : ET.Element) (earlier later : list string) (t : string) :
  ET_fromstring xml_data = Some root ->
  parse_gps_data target xml_data = Some pts ->
  report_types = earlier ++ t :: later ->
  (forall t', t' ∈ earlier -> ET.find t' root = None) ->
  ET.find t root = Some report ->
  report_types =
    [ "nalGpsReport3"; "nalGpsReport4"; "nalGpsReport5"; "nalGpsReport6";
      "nalGpsReport7"; "nal10ByteGpsReport0"; "pecosP3GpsReport";
      "pecosP4GpsReport" ]%string /\
  exists sender sender_type timestamp protocol,
    let extract element :=
      _extract_gps_point element sender sender_type timestamp protocol in
    (t = "nalGpsReport3"%string \/ t = "nalGpsReport4"%string ->
     pts = omap extract (ET.findall "point" report) /\
     ((forall point, point ∈ ET.findall "point" report ->
                     is_Some (extract point)) ->
      length pts = length (ET.findall "point" report))) /\
    (t <> "nalGpsReport3"%string -> t <> "nalGpsReport4"%string ->
     pts = option_list (extract report) /\ (length pts <= 1)%nat).
Proof.
  intros Hroot Hparse Htypes Hearlier Ht. split; [reflexivity|].
  apply parse_gps_data_Some in Hparse
    as (root' & meta & se & Hroot' & _ & _ & _ & ->).
  rewrite Hroot in Hroot'. injection Hroot' as <-.
  eexists _, _, _, _. cbv zeta.
  rewrite Htypes, (scan_report_types_first earlier t later root report)
    by assumption.
  unfold extract_report, is_collection. simpl existsb.
  split.
  - intros Ht34.
    replace (String.eqb t "nalGpsReport3"
             || (String.eqb t "nalGpsReport4" || false)) with true
      by (destruct Ht34 as [-> | ->]; reflexivity).
    split; [reflexivity|apply omap_length_all].
  - intros H3 H4.
    apply String.eqb_neq in H3, H4. rewrite H3, H4. simpl.
    destruct (_extract_gps_point report _ _ _ _); simpl; split; (reflexivity || lia).
Qed.

Lemma first_report_type_only_witness :
  exists pts sender sender_type timestamp protocol,
    @parse_gps_data Sample.runtime None Sample.xml_collection = Some pts /\
    pts = omap (fun element =>
                  @_extract_gps_point Sample.runtime element
                    sender sender_type timestamp protocol)
            (ET.findall "point" Sample.report_collection) /\
    length pts = 1%nat.
Proof.
  destruct (@first_report_type_only Sample.runtime None Sample.xml_collection
              _ Sample.doc_collection Sample.report_collection
              [] (tl report_types) "nalGpsReport3"
              eq_refl eq_refl eq_refl)
    as [_ (s & st & ts & pr & Hcollection & _)].
  - intros t' Ht'. inversion Ht'.
  - reflexivity.
  - eexists _, s, st, ts, pr. split; [reflexivity|].
    split; [apply Hcollection; left; reflexivity|reflexivity].
Defined.

(** C8 (as stated, refuted): the first report section of the sample
    message is a nalGpsReport3 with two [point] children, the second with
    a latitude of 95.0; the message yields one record, not one per
    child. *)
Lemma collection_with_rejected_point :
  ET.find "nalGpsReport3" Sample.doc_collection
    = Some Sample.report_collection /\
  length (ET.findall "point" Sample.report_collection) = 2%nat /\
  exists p,
    @parse_gps_data Sample.runtime None Sample.xml_collection = Some [p] /\
    lat p = 34.5%float.
Proof.
  split; [reflexivity|]. split; [reflexivity|].
  eexists. split; [vm_compute; reflexivity|reflexivity].
Qed.

(** C10: a message that parses, has a [meta] section with a [sender]
    element, passes the target-sender filter and has no section named by
    one of the eight report types returns the empty list, not [None]. *)
Theorem unknown_report_yields_nothing `{PyRuntime}
    (target : option string) (xml_data : string)
    (root meta sender_elem : ET.Element) :
  ET_fromstring xml_data = Some root ->
  ET.find "meta" root = Some meta ->
  ET.find "sender" meta = Some sender_elem ->
  (Py.truthy target = true -> ET.text sender_elem = target) ->
  (forall t, t ∈ report_types -> ET.find t root = None) ->
  parse_gps_data target xml_data = Some [].
Proof.
  intros Hroot Hmeta Hsender Hfilter Hnone.
  unfold parse_gps_data. rewrite Hroot, Hmeta, Hsender.
  rewrite scan_report_types_none by exact Hnone.
  destruct (Py.truthy target) eqn:Htarget; [|reflexivity].
  rewrite bool_decide_eq_true_2 by (apply Hfilter; reflexivity).
  reflexivity.
Qed.

Lemma unknown_report_yields_nothing_witness :
  @parse_gps_data Sample.runtime (Some "300234"%string)
    Sample.xml_unknown_report = Some [].
Proof.
  apply (@unknown_report_yields_nothing Sample.runtime (Some "300234"%string)
           Sample.xml_unknown_report Sample.doc_unknown_report
           (Sample.node "meta" [Sample.leaf "sender" "300234"])
           (Sample.leaf "sender" "300234") eq_refl eq_refl eq_refl).
  - intros _. reflexivity.
  - apply Forall_forall. repeat constructor.
Defined.

(** ** History store *)

Section StoreFacts.
Variable max_points : Z.

Lemma replay_foldl st pts :
  replay max_points st pts = foldl (store_point max_points) st pts.
Proof. reflexivity. Qed.

Lemma store_gps_data_foldl st pts :
  store_gps_data max_points st pts = foldl (store_point max_points) st pts.
Proof. destruct pts; reflexivity. Qed.

Lemma store_point_other st p s :
  sender p <> s ->
  gps_data (store_point max_points st p) !! s = gps_data st !! s /\
  latest_positions (store_point max_points st p) !! s
    = latest_positions st !! s.
Proof.
  intros Hne. unfold store_point; simpl.
  rewrite !lookup_insert_ne by assumption. auto.
Qed.

Lemma records_of_snoc s pts p :
  records_of s (pts ++ [p])
  = if decide (sender p = s) then records_of s pts ++ [p] else records_of s pts.
Proof.
  unfold records_of. rewrite filter_app, filter_cons, filter_nil.
  destruct (decide (sender p = s)); [reflexivity|apply app_nil_r].
Qed.

(** Senders without a record in the batch are left as they were. *)
Lemma foldl_store_point_untouched pts st s :
  records_of s pts = [] ->
  gps_data (foldl (store_point max_points) st pts) !! s = gps_data st !! s /\
  latest_positions (foldl (store_point max_points) st pts) !! s
    = latest_positions st !! s.
Proof.
  induction pts as [|p pts IH] using rev_ind; [auto|].
  rewrite records_of_snoc, foldl_snoc.
  destruct (decide (sender p = s)) as [Heq|Hne].
  - intros Hnil. destruct (records_of s pts); discriminate.
  - intros Hnil. destruct (IH Hnil) as [IHg IHl].
    destruct (store_point_other (foldl (store_point max_points) st pts) p s Hne)
      as [-> ->]. auto.
Qed.

Section ValidCap.
Hypothesis max_points_valid : 1 <= max_points.

Lemma limit_points_window l : limit_points max_points l = window max_points l.
Proof.
  unfold limit_points, window.
  destruct (Z.gtb_spec (Z.of_nat (length l)) max_points) as [Hgt|Hle].
  - rewrite list_slice_from_neg by lia. reflexivity.
  - replace (length l - Z.to_nat max_points)%nat with 0%nat by lia.
    reflexivity.
Qed.

Lemma window_length l :
  Z.of_nat (length (window max_points l)) <= max_points.
Proof. unfold window. rewrite length_drop. lia. Qed.

Lemma window_snoc l p :
  window max_points (window max_points l ++ [p])
  = window max_points (l ++ [p]).
Proof.
  unfold window. rewrite !length_app, length_drop. simpl.
  destruct (decide (length l <= Z.to_nat max_points)%nat) as [Hle|Hgt].
  - replace (length l - Z.to_nat max_points)%nat with 0%nat by lia.
    simpl. f_equal. lia.
  - rewrite !drop_app_le by (rewrite ?length_drop; lia).
    rewrite drop_drop. do 2 f_equal. lia.
Qed.

Lemma window_last l p : last (window max_points (l ++ [p])) = Some p.
Proof.
  unfold window. rewrite length_app. simpl.
  rewrite drop_app_le by lia. apply last_snoc.
Qed.

Lemma window_snoc_nonempty l p : window max_points (l ++ [p]) <> [].
Proof.
  intros Hnil. pose proof (window_last l p) as Hlast.
  rewrite Hnil in Hlast. discriminate.
Qed.

Lemma store_point_same st p :
  gps_data (store_point max_points st p) !! sender p
    = Some (window max_points
              (default [] (gps_data st !! sender p) ++ [p])) /\
  latest_positions (store_point max_points st p) !! sender p = Some p.
Proof.
  unfold store_point; simpl.
  rewrite !lookup_insert_eq, limit_points_window. auto.
Qed.

(** The window of a sender after a batch: the old history followed by
    the sender's records of the batch, cut to the cap from the front. *)
Lemma foldl_store_point_window pts st s :
  records_of s pts <> [] ->
  gps_data (foldl (store_point max_points) st pts) !! s
    = Some (window max_points
              (default [] (gps_data st !! s) ++ records_of s pts)) /\
  latest_positions (foldl (store_point max_points) st pts) !! s
    = last (records_of s pts).
Proof.
  induction pts as [|p pts IH] using rev_ind; [intros []; reflexivity|].
  rewrite records_of_snoc, foldl_snoc.
  destruct (decide (sender p = s)) as [<-|Hne].
  - intros _.
    destruct (store_point_same (foldl (store_point max_points) st pts) p)
      as [-> ->].
    rewrite last_snoc. split; [|reflexivity]. f_equal.
    destruct (records_of (sender p) pts) as [|q qs] eqn:Hrec.
    + destruct (foldl_store_point_untouched pts st (sender p) Hrec) as [-> _].
      rewrite app_nil_l. reflexivity.
    + destruct IH as [-> _]; [discriminate|]. simpl default.
      rewrite window_snoc, <- app_assoc. reflexivity.
  - intros Hrec. destruct (IH Hrec) as [IHg IHl].
    destruct (store_point_other (foldl (store_point max_points) st pts) p s Hne)
      as [-> ->]. auto.
Qed.

Lemma store_point_inv st p :
  store_inv max_points st -> store_inv max_points (store_point max_points st p).
Proof.
  intros Hinv s h Hs. destruct (decide (sender p = s)) as [<-|Hne].
  - destruct (store_point_same st p) as [Hg Hl]. rewrite Hg in Hs.
    injection Hs as <-. rewrite Hl, window_last.
    split; [apply window_snoc_nonempty|]. split; [apply window_length|reflexivity].
  - destruct (store_point_other st p s Hne) as [Hg Hl].
    rewrite Hg in Hs. rewrite Hl. apply Hinv, Hs.
Qed.

Lemma foldl_store_point_inv pts st :
  store_inv max_points st ->
  store_inv max_points (foldl (store_point max_points) st pts).
Proof.
  revert st. induction pts as [|p pts IH]; intros st Hinv; [exact Hinv|].
  simpl. apply IH, store_point_inv, Hinv.
Qed.

End ValidCap.
End StoreFacts.

(** C5: for every store state and all lists N and M, storing N and then M
    leaves the same histories and latest positions as storing N ++ M at
    once; and, the cap being at least 1, the history of every sender with a
    record in the stream is its old history followed by its records of
    N ++ M, cut from the front to the cap, its latest position being the
    last of those records. *)
Theorem store_gps_data_app (max_points : Z) (st : TrackerState)
    (N M : list Point) :
  store_gps_data max_points (store_gps_data max_points st N) M
    = store_gps_data max_points st (N ++ M) /\
  (1 <= max_points ->
   forall s, records_of s (N ++ M) <> [] ->
     gps_data (store_gps_data max_points st (N ++ M)) !! s
       = Some (window max_points
                 (default [] (gps_data st !! s) ++ records_of s (N ++ M))) /\
     latest_positions (store_gps_data max_points st (N ++ M)) !! s
       = last (records_of s (N ++ M))).
Proof.
  split.
  - rewrite !store_gps_data_foldl, foldl_app. reflexivity.
  - intros Hmax s Hrec. rewrite store_gps_data_foldl.
    apply foldl_store_point_window; assumption.
Qed.

Lemma store_gps_data_app_witness :
  store_gps_data 3 (store_gps_data 3 empty_state (take 6 Sample.eight_fixes))
    (drop 6 Sample.eight_fixes)
    = store_gps_data 3 empty_state Sample.eight_fixes /\
  gps_data (store_gps_data 3 empty_state Sample.eight_fixes)
    !! Some "balloon"%string
    = Some (drop 5 Sample.eight_fixes).
Proof.
  destruct (store_gps_data_app 3 empty_state (take 6 Sample.eight_fixes)
              (drop 6 Sample.eight_fixes)) as [Hsplit Hwindow].
  split; [exact Hsplit|].
  destruct (Hwindow ltac:(lia) (Some "balloon"%string)) as [Hhist _].
  - discriminate.
  - exact Hhist.
Defined.

(** ** Bulk load *)

Lemma truthy_Some (c : string) : Py.truthy (Some c) = true <-> c <> ""%string.
Proof.
  simpl. rewrite negb_true_iff. apply String.eqb_neq.
Qed.

Lemma grouped_tail (c : string) (l : list string) : grouped (c :: l) -> grouped l.
Proof.
  intros Hg i j k s Hk Hi Hj.
  apply (Hg (S i) (S j) (S k) s); [lia|exact Hi|exact Hj].
Qed.

Lemma grouped_run_closed (c c' : string) (l : list string) :
  grouped (c :: c' :: l) -> c' <> c -> c ∉ l.
Proof.
  intros Hg Hne Hin. apply list_elem_of_lookup in Hin as [k Hk].
  assert (Hc : (c :: c' :: l) !! 1%nat = Some c).
  { apply (Hg 0%nat (S (S k)) 1%nat c); [lia|reflexivity|exact Hk]. }
  simpl in Hc. congruence.
Qed.

Section LoadFacts.
Variable max_points : Z.
Hypothesis max_points_valid : 1 <= max_points.

Lemma install_sender_installed st cur pts :
  install_sender max_points st cur pts
  = Continue (installed max_points st cur pts).
Proof.
  unfold install_sender, installed.
  destruct pts as [|q pts _] using rev_ind.
  - rewrite andb_false_r. reflexivity.
  - rewrite last_snoc, limit_points_window by assumption.
    unfold Py.list_last. rewrite window_last by assumption.
    destruct (Py.truthy cur); simpl; [|reflexivity].
    rewrite bool_decide_eq_false_2; [reflexivity|].
    intros Hnil. destruct pts; discriminate.
Qed.

Lemma load_rows_nil cur pts st :
  load_rows max_points [] cur pts st = installed max_points st cur pts.
Proof. simpl. rewrite install_sender_installed. reflexivity. Qed.

Lemma load_rows_same row rows pts st :
  load_rows max_points (row :: rows) (Some (row_sender row)) pts st
  = load_rows max_points rows (Some (row_sender row))
      (pts ++ [point_of_row row]) st.
Proof. simpl. rewrite bool_decide_eq_true_2 by reflexivity. reflexivity. Qed.

Lemma load_rows_change row rows cur pts st :
  cur <> Some (row_sender row) ->
  load_rows max_points (row :: rows) cur pts st
  = load_rows max_points rows (Some (row_sender row)) [point_of_row row]
      (installed max_points st cur pts).
Proof.
  intros Hne. simpl. rewrite bool_decide_eq_false_2 by assumption.
  simpl. rewrite install_sender_installed. reflexivity.
Qed.

Lemma installed_inv st cur pts :
  store_inv max_points st -> store_inv max_points (installed max_points st cur pts).
Proof.
  intros Hinv. unfold installed.
  destruct pts as [|q pts _] using rev_ind; [exact Hinv|].
  rewrite last_snoc. destruct (Py.truthy cur); [|exact Hinv].
  intros s h. simpl. destruct (decide (cur = s)) as [<-|Hne].
  - rewrite !lookup_insert_eq. intros Hh. injection Hh as <-.
    rewrite window_last by assumption.
    split; [apply window_snoc_nonempty; assumption|].
    split; [apply window_length; assumption|reflexivity].
  - rewrite !lookup_insert_ne by assumption. apply Hinv.
Qed.

Lemma load_rows_inv rows cur pts st :
  store_inv max_points st ->
  store_inv max_points (load_rows max_points rows cur pts st).
Proof.
  revert cur pts st. induction rows as [|row rows IH]; intros cur pts st Hinv.
  - rewrite load_rows_nil. apply installed_inv, Hinv.
  - destruct (decide (cur = Some (row_sender row))) as [->|Hne].
    + rewrite load_rows_same. apply IH, Hinv.
    + rewrite load_rows_change by assumption. apply IH, installed_inv, Hinv.
Qed.

(** Appending to the installed run of the current sender. *)
Lemma store_point_installed_same st c pts p :
  c <> ""%string -> pts <> [] -> sender p = Some c ->
  store_point max_points (installed max_points st (Some c) pts) p
  = installed max_points st (Some c) (pts ++ [p]).
Proof.
  intros Hc Hpts Hp. apply truthy_Some in Hc.
  unfold installed. rewrite last_snoc, Hc.
  destruct (last pts) as [q|] eqn:Hlast;
    [|apply last_None in Hlast; contradiction].
  unfold store_point. rewrite Hp. simpl.
  rewrite lookup_insert_eq, !insert_insert_eq. simpl.
  rewrite limit_points_window, window_snoc by assumption. reflexivity.
Qed.

(** The first record of a sender the store does not know yet. *)
Lemma store_point_installed_new st c p :
  c <> ""%string -> sender p = Some c -> gps_data st !! Some c = None ->
  store_point max_points st p = installed max_points st (Some c) [p].
Proof.
  intros Hc Hp Hnone. apply truthy_Some in Hc.
  unfold installed, store_point. rewrite Hp, Hnone. simpl last.
  cbv iota. rewrite Hc.
  rewrite limit_points_window by assumption. reflexivity.
Qed.

Lemma installed_lookup_other st c pts s :
  s <> c ->
  gps_data (installed max_points st (Some c) pts) !! Some s
  = gps_data st !! Some s.
Proof.
  intros Hne. unfold installed.
  destruct (last pts); [|reflexivity].
  destruct (Py.truthy (Some c)); [|reflexivity].
  simpl. apply lookup_insert_ne. congruence.
Qed.

(** The loop of [load_historical_data] in the middle of a run, against
    the replay started from the state with that run installed. *)
Lemma load_rows_replay rows c pts st :
  c <> ""%string -> pts <> [] ->
  grouped (c :: map row_sender rows) ->
  (forall r, r ∈ rows -> row_sender r <> ""%string) ->
  (forall r, r ∈ rows -> row_sender r <> c ->
     gps_data st !! Some (row_sender r) = None) ->
  load_rows max_points rows (Some c) pts st
  = foldl (store_point max_points) (installed max_points st (Some c) pts)
      (map point_of_row rows).
Proof.
  revert c pts st.
  induction rows as [|row rows IH]; intros c pts st Hc Hpts Hg Hne Hfresh.
  - apply load_rows_nil.
  - simpl map. simpl foldl.
    destruct (decide (row_sender row = c)) as [<-|Hchange].
    + rewrite load_rows_same, store_point_installed_same
        by (assumption || reflexivity).
      apply IH.
      * exact Hc.
      * intros Hnil. destruct pts; discriminate.
      * apply (grouped_tail (row_sender row)). exact Hg.
      * intros r Hr. apply Hne. by apply list_elem_of_further.
      * intros r Hr. apply Hfresh. by apply list_elem_of_further.
    + assert (Hrow : row_sender row <> ""%string)
        by apply Hne, list_elem_of_here.
      rewrite load_rows_change by congruence.
      rewrite (store_point_installed_new _ (row_sender row)).
      * apply IH.
        -- exact Hrow.
        -- discriminate.
        -- apply (grouped_tail c). exact Hg.
        -- intros r Hr. apply Hne. by apply list_elem_of_further.
        -- intros r Hr Hother.
           assert (Hrc : row_sender r <> c).
           { intros Heq. apply (grouped_run_closed c (row_sender row)
                                  (map row_sender rows)); [exact Hg|exact Hchange|].
             rewrite <- Heq. apply list_elem_of_fmap. eauto. }
           rewrite installed_lookup_other by exact Hrc.
           apply Hfresh; [by apply list_elem_of_further|exact Hrc].
      * exact Hrow.
      * reflexivity.
      * rewrite installed_lookup_other by exact Hchange.
        apply Hfresh; [apply list_elem_of_here|exact Hchange].
Qed.

End LoadFacts.

(** Bulk load against replay: with a cap of at least 1, for rows grouped
    by sender (as a list ordered by sender is), none of them with the empty
    string as sender, [load_historical_data] from the empty state leaves
    exactly the histories and latest positions that storing the same
    records one at a time, in the same order, leaves. *)
Theorem load_historical_data_replay (max_points : Z) (rows : list Row) :
  1 <= max_points ->
  grouped (map row_sender rows) ->
  (forall r, r ∈ rows -> row_sender r <> ""%string) ->
  load_historical_data max_points empty_state rows
  = replay max_points empty_state (map point_of_row rows).
Proof.
  intros Hmax Hg Hne. rewrite replay_foldl. unfold load_historical_data.
  destruct rows as [|row rows]; [reflexivity|].
  assert (Hrow : row_sender row <> ""%string) by apply Hne, list_elem_of_here.
  rewrite load_rows_change by (assumption || discriminate).
  change (installed max_points empty_state None []) with empty_state.
  simpl map. simpl foldl.
  rewrite (store_point_installed_new max_points Hmax _ (row_sender row))
    by (assumption || reflexivity).
  apply load_rows_replay.
  - exact Hmax.
  - exact Hrow.
  - discriminate.
  - exact Hg.
  - intros r Hr. apply Hne. by apply list_elem_of_further.
  - intros r _ _. apply lookup_empty.
Qed.

Lemma sorted_lookup (R : relation string) (l : list string) :
  StronglySorted R l ->
  forall i j x y, (i < j)%nat -> l !! i = Some x -> l !! j = Some y -> R x y.
Proof.
  induction 1 as [|a l Hsorted IH Hall]; intros i j x y Hij Hi Hj.
  - rewrite lookup_nil in Hi. discriminate.
  - destruct j as [|j]; [lia|]. simpl in Hj. destruct i as [|i].
    + simpl in Hi. injection Hi as <-.
      rewrite Forall_forall in Hall. apply Hall.
      apply list_elem_of_lookup. eauto.
    + simpl in Hi. apply (IH i j); [lia|assumption|assumption].
Qed.

(** A list ordered by sender, for any antisymmetric order, is grouped. *)
Lemma sorted_grouped (R : relation string) (l : list string) :
  (forall x y, R x y -> R y x -> x = y) ->
  StronglySorted R l -> grouped l.
Proof.
  intros Hanti Hsorted i j k s Hk Hi Hj.
  destruct (decide (i = k)) as [<-|Hik]; [exact Hi|].
  destruct (decide (k = j)) as [->|Hkj]; [exact Hj|].
  destruct (l !! k) as [x|] eqn:Hx.
  - f_equal. apply Hanti.
    + apply (sorted_lookup R l Hsorted k j); [lia|assumption|assumption].
    + apply (sorted_lookup R l Hsorted i k); [lia|assumption|assumption].
  - apply lookup_ge_None in Hx. apply lookup_lt_Some in Hj. lia.
Qed.

(** The same for rows ordered by sender, whatever the (antisymmetric)
    order of the sender column is. *)
Corollary load_historical_data_replay_sorted (max_points : Z)
    (R : relation string) (rows : list Row) :
  1 <= max_points ->
  (forall x y, R x y -> R y x -> x = y) ->
  StronglySorted R (map row_sender rows) ->
  (forall r, r ∈ rows -> row_sender r <> ""%string) ->
  load_historical_data max_points empty_state rows
  = replay max_points empty_state (map point_of_row rows).
Proof.
  intros Hmax Hanti Hsorted Hne.
  apply load_historical_data_replay; [exact Hmax| |exact Hne].
  apply (sorted_grouped R); assumption.
Qed.

(** C3 (fails on the code): for the two rows of
    [Sample.rows_with_empty_sender], which are in sender order, the bulk
    load keeps nothing for the sender [''] (the run is skipped because the
    empty string is falsy) while replaying the same records through
    [store_gps_data] keeps its record; the two agree on the other
    sender. *)
Theorem load_historical_data_drops_empty_sender :
  let rows := Sample.rows_with_empty_sender in
  let loaded := load_historical_data 1000 empty_state rows in
  let replayed := replay 1000 empty_state (map point_of_row rows) in
  gps_data loaded !! Some ""%string = None /\
  latest_positions loaded !! Some ""%string = None /\
  gps_data replayed !! Some ""%string
    = Some [point_of_row (Sample.row "" "2025-09-02T10:00:00")] /\
  latest_positions replayed !! Some ""%string
    = Some (point_of_row (Sample.row "" "2025-09-02T10:00:00")) /\
  gps_data loaded !! Some "balloon"%string
    = gps_data replayed !! Some "balloon"%string /\
  loaded <> replayed.
Proof.
  cbv zeta.
  assert (Hloaded :
    gps_data (load_historical_data 1000 empty_state Sample.rows_with_empty_sender)
      !! Some ""%string = None) by (vm_compute; reflexivity).
  assert (Hreplayed :
    gps_data (replay 1000 empty_state
                (map point_of_row Sample.rows_with_empty_sender))
      !! Some ""%string
    = Some [point_of_row (Sample.row "" "2025-09-02T10:00:00")])
    by (vm_compute; reflexivity).
  split; [exact Hloaded|].
  split; [vm_compute; reflexivity|].
  split; [exact Hreplayed|].
  split; [vm_compute; reflexivity|].
  split; [vm_compute; reflexivity|].
  intros Heq. rewrite Heq, Hreplayed in Hloaded. discriminate.
Qed.

(** C6 (fails on the code): with the default cap of 1000, after the bulk
    load of the two rows of [Sample.rows_with_empty_sender] the sender ['']
    has no history and no latest position, although its one record is the
    most recent one of that sender; the same records appended through
    [store_gps_data] leave that record as the history and the latest
    position of ['']. *)
Theorem load_historical_data_retains_no_empty_sender :
  let rows := Sample.rows_with_empty_sender in
  let records := map point_of_row rows in
  let loaded := load_historical_data 1000 empty_state rows in
  let appended := store_gps_data 1000 empty_state records in
  records_of (Some ""%string) records
    = [point_of_row (Sample.row "" "2025-09-02T10:00:00")] /\
  gps_data loaded !! Some ""%string = None /\
  latest_positions loaded !! Some ""%string = None /\
  gps_data appended !! Some ""%string
    = Some (records_of (Some ""%string) records) /\
  latest_positions appended !! Some ""%string
    = last (records_of (Some ""%string) records).
Proof. cbv zeta. repeat split; vm_compute; reflexivity. Qed.

Lemma records_of_all (s : option string) (pts : list Point) :
  (forall p, p ∈ pts -> sender p = s) -> records_of s pts = pts.
Proof.
  intros Hall. unfold records_of. induction pts as [|p pts IH]; [reflexivity|].
  rewrite filter_cons_True by apply Hall, list_elem_of_here.
  f_equal. apply IH. intros q Hq. apply Hall. by apply list_elem_of_further.
Qed.

(** X25: with a cap of at least 1,
    - the empty store has the invariant [store_inv] (every history is
      non-empty, holds at most [max_points] records and ends with the
      sender's latest position), [store_gps_data] keeps it and
      [load_historical_data] establishes it;
    - after [store_gps_data] the history of a sender with records in the
      batch is its old history followed by those records, in arrival
      order, cut from the front to the cap, and its latest position is the
      last of them;
    - after [load_historical_data] on rows grouped by sender, with no empty
      sender string, the history of a sender is the last [max_points] of its
      rows, in row order;
    - storing [max_points + 5] records of one sender into the empty store
      leaves exactly the records after the first five, [max_points] of
      them, the latest position being the last record stored. *)
Theorem history_cap (max_points : Z) :
  1 <= max_points ->
  store_inv max_points empty_state /\
  (forall st pts,
      store_inv max_points st ->
      store_inv max_points (store_gps_data max_points st pts)) /\
  (forall rows,
      store_inv max_points (load_historical_data max_points empty_state rows)) /\
  (forall st pts s,
      records_of s pts <> [] ->
      gps_data (store_gps_data max_points st pts) !! s
        = Some (window max_points
                  (default [] (gps_data st !! s) ++ records_of s pts)) /\
      latest_positions (store_gps_data max_points st pts) !! s
        = last (records_of s pts)) /\
  (forall rows s,
      grouped (map row_sender rows) ->
      (forall r, r ∈ rows -> row_sender r <> ""%string) ->
      records_of s (map point_of_row rows) <> [] ->
      gps_data (load_historical_data max_points empty_state rows) !! s
        = Some (window max_points (records_of s (map point_of_row rows))) /\
      latest_positions (load_historical_data max_points empty_state rows) !! s
        = last (records_of s (map point_of_row rows))) /\
  (forall s pts,
      (forall p, p ∈ pts -> sender p = s) ->
      Z.of_nat (length pts) = max_points + 5 ->
      gps_data (store_gps_data max_points empty_state pts) !! s
        = Some (drop 5 pts) /\
      Z.of_nat (length (drop 5 pts)) = max_points /\
      latest_positions (store_gps_data max_points empty_state pts) !! s
        = last pts).
Proof.
  intros Hmax.
  assert (Hempty : store_inv max_points empty_state).
  { intros s h Hs. simpl in Hs. rewrite lookup_empty in Hs. discriminate. }
  split; [exact Hempty|].
  split.
  { intros st pts Hinv. rewrite store_gps_data_foldl.
    apply foldl_store_point_inv; assumption. }
  split.
  { intros rows. apply load_rows_inv; assumption. }
  split.
  { intros st pts s Hrec. rewrite store_gps_data_foldl.
    apply foldl_store_point_window; assumption. }
  split.
  { intros rows s Hg Hne Hrec.
    rewrite load_historical_data_replay, replay_foldl by assumption.
    destruct (foldl_store_point_window max_points Hmax
                (map point_of_row rows) empty_state s Hrec) as [-> ->].
    simpl. rewrite lookup_empty. auto. }
  intros s pts Hall Hlen. rewrite store_gps_data_foldl.
  assert (Hrec : records_of s pts = pts) by (apply records_of_all; exact Hall).
  destruct (foldl_store_point_window max_points Hmax pts empty_state s)
    as [-> ->].
  - rewrite Hrec. intros ->. simpl in Hlen. lia.
  - rewrite Hrec. simpl. rewrite lookup_empty. simpl.
    unfold window.
    replace (length pts - Z.to_nat max_points)%nat with 5%nat by lia.
    rewrite length_drop. repeat split; [lia].
Qed.

Lemma history_cap_witness :
  gps_data (store_gps_data 3 empty_state Sample.eight_fixes)
    !! Some "balloon"%string
    = Some (drop 5 Sample.eight_fixes) /\
  Z.of_nat (length (drop 5 Sample.eight_fixes)) = 3 /\
  latest_positions (store_gps_data 3 empty_state Sample.eight_fixes)
    !! Some "balloon"%string
    = last Sample.eight_fixes.
Proof.
  destruct (history_cap 3 ltac:(lia)) as (_ & _ & _ & _ & _ & Hcap).
  apply (Hcap (Some "balloon"%string) Sample.eight_fixes).
  - apply Forall_forall. repeat constructor.
  - reflexivity.
Defined.

(** * Further properties of the pipeline *)

(** ** Strings *)

Lemma string_length_append (s t : string) :
  String.length (s +:+ t) = (String.length s + String.length t)%nat.
Proof. induction s as [|c s IH]; simpl; [reflexivity|]. rewrite IH. reflexivity. Qed.

Lemma substring_length (n m : nat) (s : string) :
  String.length (String.substring n m s) = Nat.min m (String.length s - n).
Proof.
  revert n m. induction s as [|c s IH]; intros [|n] [|m]; simpl; try reflexivity.
  - rewrite (IH 0%nat m). rewrite Nat.sub_0_r. reflexivity.
  - apply (IH n 0%nat).
  - apply (IH n (S m)).
Qed.

Lemma substring_app_l (n m : nat) (s t : string) :
  (n + m <= String.length s)%nat ->
  String.substring n m (s +:+ t) = String.substring n m s.
Proof.
  revert n m. induction s as [|c s IH]; intros n m Hlen; simpl in Hlen.
  - assert (n = 0%nat) as -> by lia. assert (m = 0%nat) as -> by lia.
    simpl. destruct t; reflexivity.
  - destruct n as [|n]; destruct m as [|m]; simpl; try reflexivity.
    + f_equal. apply IH. lia.
    + apply IH. lia.
    + apply IH. lia.
Qed.

Lemma substring_all (s : string) : String.substring 0 (String.length s) s = s.
Proof. induction s as [|c s IH]; simpl; [reflexivity|]. rewrite IH. reflexivity. Qed.

Lemma substring_app_tail (n : nat) (s t : string) :
  (n <= String.length s)%nat ->
  String.substring n (String.length (s +:+ t) - n) (s +:+ t)
  = String.substring n (String.length s - n) s +:+ t.
Proof.
  revert n. induction s as [|c s IH]; intros n Hlen; simpl in Hlen.
  - assert (n = 0%nat) as -> by lia. simpl.
    rewrite Nat.sub_0_r. apply substring_all.
  - destruct n as [|n].
    + rewrite !Nat.sub_0_r, !substring_all. reflexivity.
    + simpl. apply IH. lia.
Qed.

Lemma substring_substring (n k p q : nat) (s : string) :
  (p + q <= k)%nat ->
  String.substring p q (String.substring n k s) = String.substring (n + p) q s.
Proof.
  revert n k p q. induction s as [|c s IH]; intros n k p q Hle.
  - destruct n, k, p, q; reflexivity.
  - destruct n as [|n].
    + destruct k as [|k].
      * assert (p = 0%nat) as -> by lia. assert (q = 0%nat) as -> by lia.
        reflexivity.
      * simpl. destruct p as [|p].
        -- destruct q as [|q]; [reflexivity|].
           simpl. f_equal. apply (IH 0%nat k 0%nat q). lia.
        -- simpl. apply (IH 0%nat k p q). lia.
    + simpl. apply IH. exact Hle.
Qed.

Lemma prefix_length (s1 s2 : string) :
  String.prefix s1 s2 = true -> (String.length s1 <= String.length s2)%nat.
Proof.
  revert s2. induction s1 as [|a s1 IH]; intros s2 Hp; simpl; [lia|].
  destruct s2 as [|b s2]; simpl in Hp; [discriminate|].
  destruct (Ascii.ascii_dec a b); [|discriminate].
  apply IH in Hp. simpl. lia.
Qed.

Lemma prefix_app (s1 s2 t : string) :
  (String.length s1 <= String.length s2)%nat ->
  String.prefix s1 (s2 +:+ t) = String.prefix s1 s2.
Proof.
  revert s2. induction s1 as [|a s1 IH]; intros s2 Hlen; simpl.
  - destruct s2, t; reflexivity.
  - destruct s2 as [|b s2]; simpl in Hlen; [lia|].
    simpl. destruct (Ascii.ascii_dec a b); [|reflexivity].
    apply IH. lia.
Qed.

Lemma index_le (n : nat) (s1 s2 : string) (m : nat) :
  String.index n s1 s2 = Some m -> (n <= m)%nat.
Proof.
  revert n m. induction s2 as [|b s2 IH]; intros n m; simpl.
  - destruct n; [|discriminate]. lia.
  - destruct n as [|n]; [lia|].
    destruct (String.index n s1 s2) as [m'|] eqn:Hm; [|discriminate].
    intros Heq. injection Heq as <-. apply IH in Hm. lia.
Qed.

Lemma index_bound (n : nat) (s1 s2 : string) (m : nat) :
  String.index n s1 s2 = Some m ->
  (m + String.length s1 <= String.length s2)%nat.
Proof.
  revert n m. induction s2 as [|b s2 IH]; intros n m; cbn [String.index].
  - destruct n; [|discriminate]. destruct s1; [|discriminate].
    intros Heq. injection Heq as <-. simpl. lia.
  - destruct n as [|n].
    + destruct (String.prefix s1 (String b s2)) eqn:Hp.
      * intros Heq. injection Heq as <-. apply prefix_length in Hp. lia.
      * destruct (String.index 0 s1 s2) as [m'|] eqn:Hm; [|discriminate].
        intros Heq. injection Heq as <-. apply IH in Hm. cbn [String.length]. lia.
    + destruct (String.index n s1 s2) as [m'|] eqn:Hm; [|discriminate].
      intros Heq. injection Heq as <-. apply IH in Hm. cbn [String.length]. lia.
Qed.

(** Text that arrives later does not move an occurrence already found. *)
Lemma index_app_Some (n : nat) (s1 s2 t : string) (m : nat) :
  String.index n s1 s2 = Some m -> String.index n s1 (s2 +:+ t) = Some m.
Proof.
  revert n m. induction s2 as [|b s2 IH]; intros n m.
  - simpl. destruct n; [|discriminate]. destruct s1; [|discriminate].
    intros Heq. injection Heq as <-. destruct t; reflexivity.
  - intros Hidx. pose proof (index_bound _ _ _ _ Hidx) as Hbound.
    cbn [String.index] in Hidx. destruct n as [|n].
    + change (String b s2 +:+ t) with (String b (s2 +:+ t)).
      cbn [String.index].
      change (String b (s2 +:+ t)) with (String b s2 +:+ t).
      rewrite prefix_app by lia.
      destruct (String.prefix s1 (String b s2)); [exact Hidx|].
      destruct (String.index 0 s1 s2) as [m'|] eqn:Hm; [|discriminate].
      rewrite (IH 0%nat m' Hm). exact Hidx.
    + change (String b s2 +:+ t) with (String b (s2 +:+ t)).
      cbn [String.index].
      destruct (String.index n s1 s2) as [m'|] eqn:Hm; [|discriminate].
      rewrite (IH n m' Hm). exact Hidx.
Qed.

(** The first occurrence at or after [n], from its two defining facts. *)
Lemma index_first (n : nat) (s1 s2 : string) (m : nat) :
  s1 <> ""%string -> (n <= m)%nat -> occurs_at s1 s2 m ->
  (forall p, (n <= p < m)%nat -> ~ occurs_at s1 s2 p) ->
  String.index n s1 s2 = Some m.
Proof.
  intros Hne Hnm Hocc Hfirst.
  destruct (String.index n s1 s2) as [m'|] eqn:Hidx.
  - f_equal. destruct (Nat.lt_trichotomy m' m) as [Hlt|[->|Hgt]]; [|reflexivity|].
    + exfalso. apply (Hfirst m').
      * split; [eapply index_le; eassumption|exact Hlt].
      * eapply String.index_correct1. eassumption.
    + exfalso. apply (String.index_correct2 n m' s1 s2 Hidx m); [lia|lia|].
      exact Hocc.
  - exfalso. apply (String.index_correct3 n m s1 s2 Hidx Hne); [lia|].
    exact Hocc.
Qed.

(** ** Stream framer, continued *)

Lemma str_find_Some (sub s : string) (start i : nat) :
  String.index start sub s = Some i ->
  Py.str_find sub s (Z.of_nat start) = Z.of_nat i.
Proof. intros Hi. unfold Py.str_find. rewrite Nat2Z.id, Hi. reflexivity. Qed.

Lemma str_find_None (sub s : string) (start : nat) :
  String.index start sub s = None ->
  Py.str_find sub s (Z.of_nat start) = -1.
Proof. intros Hi. unfold Py.str_find. rewrite Nat2Z.id, Hi. reflexivity. Qed.

Lemma str_in_true (sub s : string) :
  Py.str_in sub s = true <-> exists i, String.index 0 sub s = Some i.
Proof.
  unfold Py.str_in, Py.str_find. change (Z.to_nat 0) with 0%nat.
  destruct (String.index 0 sub s) as [i|].
  - split; [eauto|]. intros _. apply negb_true_iff, Z.eqb_neq. lia.
  - split; [discriminate|]. intros [i Hi]. discriminate.
Qed.

(** An opening tag does not start inside a closing tag. *)
Lemma open_not_inside_close (s : string) (p i : nat) :
  occurs_at Framer.close_tag s p -> occurs_at Framer.open_tag s i ->
  (p < i)%nat -> (p + 7 <= i)%nat.
Proof.
  unfold occurs_at. intros Hclose Hopen Hlt.
  destruct (Nat.le_gt_cases (p + 7) i) as [|Hin]; [assumption|exfalso].
  assert (Hi : String.get i s = String.get 0 Framer.open_tag).
  { pose proof (String.substring_correct1 s i 6 0 ltac:(lia)) as Hget.
    change (String.length Framer.open_tag) with 6%nat in Hopen.
    rewrite Hopen in Hget. simpl Nat.add in Hget. congruence. }
  assert (Hk : exists k, (1 <= k < 7)%nat /\ i = (k + p)%nat)
    by (exists (i - p)%nat; lia).
  destruct Hk as (k & Hk & ->).
  pose proof (String.substring_correct1 s p 7 k ltac:(lia)) as Hget.
  change (String.length Framer.close_tag) with 7%nat in Hclose.
  rewrite Hclose, Hi in Hget.
  destruct k as [|[|[|[|[|[|[|k]]]]]]]; try lia; discriminate Hget.
Qed.

(** The iteration that finds an opening tag at [start] and the first
    closing tag after it at [e] emits the text between them, both tags
    included, and keeps what follows. *)
Lemma listen_iteration_found (buffer : string) (start e : nat) :
  String.index 0 Framer.open_tag buffer = Some start ->
  String.index start Framer.close_tag buffer = Some e ->
  Framer.listen_iteration buffer
  = Framer.Emit (String.substring start (e + 7 - start) buffer)
      (String.substring (e + 7) (String.length buffer - (e + 7)) buffer).
Proof.
  intros Hstart He.
  pose proof (index_le _ _ _ _ He) as Hle.
  pose proof (index_bound _ _ _ _ He) as Hbound.
  change (String.length Framer.close_tag) with 7%nat in Hbound.
  assert (Hclose : Py.str_in Framer.close_tag buffer = true).
  { apply str_in_true.
    destruct (String.index 0 Framer.close_tag buffer) as [p|] eqn:Hp; [eauto|].
    exfalso. apply (String.index_correct3 0 e _ _ Hp); [discriminate|lia|].
    eapply String.index_correct1. exact He. }
  unfold Framer.listen_iteration.
  rewrite (proj2 (str_in_true _ _) (ex_intro _ start Hstart)), Hclose.
  simpl andb. cbv zeta.
  change 0 with (Z.of_nat 0). rewrite (str_find_Some _ _ _ _ Hstart).
  rewrite (str_find_Some _ _ _ _ He).
  destruct (Z.eqb_spec (Z.of_nat start) (-1)) as [|_]; [lia|].
  destruct (Z.gtb_spec (Z.of_nat e + 7) (Z.of_nat start)) as [_|]; [|lia].
  simpl. unfold Py.str_slice_from, Py.str_slice, Py.clamp.
  destruct (Z.ltb_spec (Z.of_nat start) 0) as [|_]; [lia|].
  destruct (Z.ltb_spec (Z.of_nat e + 7) 0) as [|_]; [lia|].
  destruct (Z.ltb_spec (Z.of_nat (String.length buffer)) 0) as [|_]; [lia|].
  f_equal; f_equal; lia.
Qed.

(** With an opening tag but no closing tag at or after it, the iteration
    changes nothing: it leaves the loop when the buffer has no closing tag
    at all and goes round again when it has one. *)
Lemma listen_iteration_not_found (buffer : string) (start : nat) :
  String.index 0 Framer.open_tag buffer = Some start ->
  String.index start Framer.close_tag buffer = None ->
  Framer.listen_iteration buffer
  = if Py.str_in Framer.close_tag buffer then Framer.Skip else Framer.Exit.
Proof.
  intros Hstart He. unfold Framer.listen_iteration.
  rewrite (proj2 (str_in_true _ _) (ex_intro _ start Hstart)).
  destruct (Py.str_in Framer.close_tag buffer) eqn:Hclose; [|reflexivity].
  simpl andb. cbv zeta.
  change 0 with (Z.of_nat 0). rewrite (str_find_Some _ _ _ _ Hstart).
  rewrite (str_find_None _ _ _ He).
  apply str_in_true in Hclose as [p Hp].
  assert (Hlt : (p < start)%nat).
  { destruct (Nat.lt_ge_cases p start) as [|Hge]; [assumption|exfalso].
    apply (String.index_correct3 start p _ _ He); [discriminate|lia|].
    eapply String.index_correct1. exact Hp. }
  assert (Hfar : (p + 7 <= start)%nat).
  { apply (open_not_inside_close buffer); [| |exact Hlt].
    - eapply String.index_correct1. exact Hp.
    - eapply String.index_correct1. exact Hstart. }
  destruct (Z.gtb_spec (-1 + 7) (Z.of_nat start)) as [|_]; [lia|].
  rewrite andb_false_r. reflexivity.
Qed.

Lemma listen_iteration_no_open (buffer : string) :
  String.index 0 Framer.open_tag buffer = None ->
  Framer.listen_iteration buffer = Framer.Exit.
Proof.
  intros Hnone. unfold Framer.listen_iteration.
  destruct (Py.str_in Framer.open_tag buffer) eqn:Hopen; [|reflexivity].
  apply str_in_true in Hopen as [i Hi]. congruence.
Qed.

(** The emitting iteration, read backwards. *)
Lemma listen_iteration_Emit (buffer xml_message buffer' : string) :
  Framer.listen_iteration buffer = Framer.Emit xml_message buffer' ->
  exists start e,
    String.index 0 Framer.open_tag buffer = Some start /\
    String.index start Framer.close_tag buffer = Some e /\
    xml_message = String.substring start (e + 7 - start) buffer /\
    buffer' = String.substring (e + 7) (String.length buffer - (e + 7)) buffer.
Proof.
  intros Hemit.
  destruct (String.index 0 Framer.open_tag buffer) as [start|] eqn:Hstart.
  - destruct (String.index start Framer.close_tag buffer) as [e|] eqn:He.
    + rewrite (listen_iteration_found _ _ _ Hstart He) in Hemit.
      injection Hemit as <- <-. exists start, e. auto.
    + rewrite (listen_iteration_not_found _ _ Hstart He) in Hemit.
      destruct (Py.str_in Framer.close_tag buffer); discriminate.
  - rewrite (listen_iteration_no_open _ Hstart) in Hemit. discriminate.
Qed.

(** A closing tag does not start inside an opening tag. *)
Lemma close_not_inside_open (s : string) (i e : nat) :
  occurs_at Framer.open_tag s i -> occurs_at Framer.close_tag s e ->
  (i <= e)%nat -> (i + 6 <= e)%nat.
Proof.
  unfold occurs_at. intros Hopen Hclose Hle.
  destruct (Nat.le_gt_cases (i + 6) e) as [|Hin]; [assumption|exfalso].
  assert (He : String.get e s = String.get 0 Framer.close_tag).
  { pose proof (String.substring_correct1 s e 7 0 ltac:(lia)) as Hget.
    change (String.length Framer.close_tag) with 7%nat in Hclose.
    rewrite Hclose in Hget. simpl Nat.add in Hget. congruence. }
  assert (Hsecond : String.get (S e) s = String.get 1 Framer.close_tag).
  { pose proof (String.substring_correct1 s e 7 1 ltac:(lia)) as Hget.
    change (String.length Framer.close_tag) with 7%nat in Hclose.
    rewrite Hclose in Hget. simpl Nat.add in Hget. congruence. }
  assert (Hk : exists k, (k < 6)%nat /\ e = (k + i)%nat)
    by (exists (e - i)%nat; lia).
  destruct Hk as (k & Hk & ->).
  change (String.length Framer.open_tag) with 6%nat in Hopen.
  destruct k as [|k].
  - pose proof (String.substring_correct1 s i 6 1 ltac:(lia)) as Hget.
    rewrite Hopen in Hget. simpl Nat.add in *. rewrite Hsecond in Hget.
    discriminate Hget.
  - pose proof (String.substring_correct1 s i 6 (S k) ltac:(lia)) as Hget.
    rewrite Hopen, He in Hget.
    destruct k as [|[|[|[|[|k]]]]]; try lia; discriminate Hget.
Qed.

Lemma process_buffer_more_fuel (fuel fuel' : nat) (buffer : string) r :
  Framer.process_buffer fuel buffer = Some r -> (fuel <= fuel')%nat ->
  Framer.process_buffer fuel' buffer = Some r.
Proof.
  revert fuel' buffer r. induction fuel as [|fuel IH]; intros fuel' buffer r;
    [discriminate|].
  intros Hrun Hle. destruct fuel' as [|fuel']; [lia|].
  simpl in *. destruct (Framer.listen_iteration buffer) as [|msg buffer'|].
  - exact Hrun.
  - destruct (Framer.process_buffer fuel buffer') as [[msgs rest]|] eqn:Hrest;
      [|discriminate].
    rewrite (IH fuel' buffer' (msgs, rest) Hrest) by lia. exact Hrun.
  - apply IH; [exact Hrun|lia].
Qed.

(** X1: every message the loop hands to [parse_gps_data] begins with the
    opening tag, has its only closing tag at its very end, and is at least
    as long as the two tags together. *)
Theorem framed_messages_delimited (fuel : nat) (buffer : string)
    (msgs : list string) (rest : string) :
  Framer.process_buffer fuel buffer = Some (msgs, rest) ->
  Forall (fun xml_message =>
            String.prefix Framer.open_tag xml_message = true /\
            String.index 0 Framer.close_tag xml_message
              = Some (String.length xml_message - 7)%nat /\
            (13 <= String.length xml_message)%nat) msgs.
Proof.
  revert buffer msgs rest. induction fuel as [|fuel IH]; intros buffer msgs rest;
    [discriminate|].
  simpl. destruct (Framer.listen_iteration buffer) as [|msg buffer'|] eqn:Hit.
  - intros Hrun. injection Hrun as <- <-. constructor.
  - destruct (Framer.process_buffer fuel buffer') as [[msgs' rest']|] eqn:Hrest;
      [|discriminate].
    intros Hrun. injection Hrun as <- <-.
    constructor; [|eapply IH; eassumption].
    apply listen_iteration_Emit in Hit as (start & e & Hstart & He & -> & _).
    pose proof (index_le _ _ _ _ He) as Hle.
    pose proof (index_bound _ _ _ _ He) as Hbound.
    change (String.length Framer.close_tag) with 7%nat in Hbound.
    pose proof (String.index_correct1 _ _ _ _ Hstart) as Hopen.
    pose proof (String.index_correct1 _ _ _ _ He) as Hclose.
    pose proof (close_not_inside_open buffer start e Hopen Hclose Hle) as Hfar.
    assert (Hlen : String.length (String.substring start (e + 7 - start) buffer)
                   = (e + 7 - start)%nat)
      by (rewrite substring_length; lia).
    rewrite Hlen. repeat split.
    + apply String.prefix_correct.
      change (String.length Framer.open_tag) with 6%nat in *.
      rewrite substring_substring by lia. rewrite Nat.add_0_r. exact Hopen.
    + apply index_first; [discriminate|lia| |].
      * unfold occurs_at. change (String.length Framer.close_tag) with 7%nat in *.
        rewrite substring_substring by lia.
        replace (start + (e + 7 - start - 7))%nat with e by lia. exact Hclose.
      * intros p Hp. unfold occurs_at.
        change (String.length Framer.close_tag) with 7%nat.
        rewrite substring_substring by lia.
        apply (String.index_correct2 _ _ _ _ He); lia.
    + lia.
  - intros Hrun. eapply IH. eassumption.
Qed.

Lemma framed_messages_delimited_witness :
  Forall (fun xml_message =>
            String.prefix Framer.open_tag xml_message = true /\
            String.index 0 Framer.close_tag xml_message
              = Some (String.length xml_message - 7)%nat /\
            (13 <= String.length xml_message)%nat)
    ["<data>a</data>"; "<data><data>b</data>"]%string.
Proof.
  apply (framed_messages_delimited 5
           "junk<data>a</data></data><data><data>b</data><data>tail"
           _ "<data>tail").
  reflexivity.
Defined.

(** X2: the iteration that changes nothing is exactly the one run on a
    buffer that holds an opening tag and a closing tag but no closing tag
    at or after its first opening tag. *)
Theorem listen_iteration_Skip_iff (buffer : string) :
  Framer.listen_iteration buffer = Framer.Skip <->
  exists start,
    String.index 0 Framer.open_tag buffer = Some start /\
    String.index start Framer.close_tag buffer = None /\
    Py.str_in Framer.close_tag buffer = true.
Proof.
  split.
  - intros Hskip.
    destruct (String.index 0 Framer.open_tag buffer) as [start|] eqn:Hstart.
    + destruct (String.index start Framer.close_tag buffer) as [e|] eqn:He.
      * rewrite (listen_iteration_found _ _ _ Hstart He) in Hskip. discriminate.
      * rewrite (listen_iteration_not_found _ _ Hstart He) in Hskip.
        exists start. destruct (Py.str_in Framer.close_tag buffer);
          [auto|discriminate].
    + rewrite (listen_iteration_no_open _ Hstart) in Hskip. discriminate.
  - intros (start & Hstart & He & Hclose).
    rewrite (listen_iteration_not_found _ _ Hstart He), Hclose. reflexivity.
Qed.

(** X3: on every buffer the loop either is over within one iteration per
    character, plus one, or is never over, however many iterations it is
    given. *)
Theorem process_buffer_exits_or_never (buffer : string) :
  (exists msgs rest,
      Framer.process_buffer (S (String.length buffer)) buffer
      = Some (msgs, rest)) \/
  (forall fuel, Framer.process_buffer fuel buffer = None).
Proof.
  destruct (process_buffer_exits_or_spins (S (String.length buffer)) buffer)
    as [Hexit|Hspins]; [lia|left; exact Hexit|right].
  apply spins_forever, Hspins.
Qed.

Lemma string_app_cons (c : Ascii.ascii) (s t : string) :
  String c s +:+ t = String c (s +:+ t).
Proof. reflexivity. Qed.

Lemma string_app_assoc (s t u : string) : (s +:+ t) +:+ u = s +:+ (t +:+ u).
Proof.
  induction s as [|c s IH]; [reflexivity|].
  rewrite !string_app_cons. f_equal. exact IH.
Qed.

Lemma substring_split (k : nat) (s : string) :
  (k <= String.length s)%nat ->
  s = String.substring 0 k s +:+ String.substring k (String.length s - k) s.
Proof.
  revert k. induction s as [|c s IH]; intros k Hk; simpl in Hk.
  - assert (k = 0%nat) as -> by lia. reflexivity.
  - destruct k as [|k].
    + simpl. rewrite substring_all. reflexivity.
    + simpl. rewrite string_app_cons. f_equal. apply IH. lia.
Qed.

(** X4: when the loop is over, the buffer it keeps is the tail of the
    buffer it started from, the messages were all taken from the part in
    front of it, and the kept buffer no longer holds both tags. *)
Theorem process_buffer_keeps_tail (fuel : nat) (buffer : string)
    (msgs : list string) (rest : string) :
  Framer.process_buffer fuel buffer = Some (msgs, rest) ->
  (exists consumed,
      buffer = consumed +:+ rest /\
      (sum_list (String.length <$> msgs) <= String.length consumed)%nat) /\
  Py.str_in Framer.open_tag rest && Py.str_in Framer.close_tag rest = false.
Proof.
  revert buffer msgs rest. induction fuel as [|fuel IH]; intros buffer msgs rest;
    [discriminate|].
  simpl. destruct (Framer.listen_iteration buffer) as [|msg buffer'|] eqn:Hit.
  - intros Hrun. injection Hrun as <- <-. split.
    + exists ""%string. split; [reflexivity|simpl; lia].
    + unfold Framer.listen_iteration in Hit.
      destruct (_ && _); [|reflexivity].
      destruct (_ && _) in Hit; discriminate.
  - destruct (Framer.process_buffer fuel buffer') as [[msgs' rest']|] eqn:Hrest;
      [|discriminate].
    intros Hrun. injection Hrun as <- <-.
    destruct (IH _ _ _ Hrest) as [(consumed & Hbuf & Hsum) Hpair].
    split; [|exact Hpair].
    apply listen_iteration_Emit in Hit as (start & e & Hstart & He & -> & ->).
    pose proof (index_le _ _ _ _ He) as Hle.
    pose proof (index_bound _ _ _ _ He) as Hbound.
    change (String.length Framer.close_tag) with 7%nat in Hbound.
    exists (String.substring 0 (e + 7) buffer +:+ consumed). split.
    + rewrite string_app_assoc, <- Hbuf. apply substring_split. lia.
    + rewrite fmap_cons. simpl sum_list.
      rewrite string_length_append, !substring_length. lia.
  - intros Hrun. eapply IH. eassumption.
Qed.

Lemma process_buffer_keeps_tail_witness :
  (exists consumed,
      "junk<data>a</data><da"%string = consumed +:+ "<da"%string /\
      (sum_list (String.length <$> ["<data>a</data>"%string])
       <= String.length consumed)%nat) /\
  Py.str_in Framer.open_tag "<da" && Py.str_in Framer.close_tag "<da" = false.
Proof.
  apply (process_buffer_keeps_tail 3 "junk<data>a</data><da"). reflexivity.
Defined.

(** Text received later does not change what an emitting iteration
    emits. *)
Lemma listen_iteration_emit_app (buffer xml_message buffer' data : string) :
  Framer.listen_iteration buffer = Framer.Emit xml_message buffer' ->
  Framer.listen_iteration (buffer +:+ data)
  = Framer.Emit xml_message (buffer' +:+ data).
Proof.
  intros Hit.
  apply listen_iteration_Emit in Hit as (start & e & Hstart & He & -> & ->).
  pose proof (index_le _ _ _ _ He) as Hle.
  pose proof (index_bound _ _ _ _ He) as Hbound.
  change (String.length Framer.close_tag) with 7%nat in Hbound.
  rewrite (listen_iteration_found (buffer +:+ data) start e)
    by (apply index_app_Some; assumption).
  rewrite substring_app_l by lia.
  rewrite substring_app_tail by lia. reflexivity.
Qed.

(** Framing the buffer, then what is left of it with more data behind
    it, against framing everything at once. *)
Lemma process_buffer_app (fuel1 fuel2 : nat) (buffer data : string)
    (msgs1 msgs2 : list string) (rest1 rest2 : string) :
  Framer.process_buffer fuel1 buffer = Some (msgs1, rest1) ->
  Framer.process_buffer fuel2 (rest1 +:+ data) = Some (msgs2, rest2) ->
  Framer.process_buffer (fuel1 + fuel2) (buffer +:+ data)
  = Some (msgs1 ++ msgs2, rest2).
Proof.
  revert buffer msgs1 rest1.
  induction fuel1 as [|fuel1 IH]; intros buffer msgs1 rest1; [discriminate|].
  intros Hrun1 Hrun2. simpl in Hrun1.
  destruct (Framer.listen_iteration buffer) as [|msg buffer'|] eqn:Hit.
  - injection Hrun1 as <- <-.
    apply (process_buffer_more_fuel fuel2); [exact Hrun2|lia].
  - destruct (Framer.process_buffer fuel1 buffer') as [[msgs' rest']|] eqn:Hrest;
      [|discriminate].
    injection Hrun1 as <- <-. simpl.
    rewrite (listen_iteration_emit_app _ _ _ data Hit).
    rewrite (IH buffer' msgs' rest' Hrest Hrun2). reflexivity.
  - rewrite (process_buffer_skip buffer Hit fuel1) in Hrun1. discriminate.
Qed.

(** X5: how the data is cut into [recv] chunks does not matter to the
    framing: when the loop is over after [data1] and again after [data2],
    it is over on the two received at once, with the same messages in the
    same order and the same buffer kept. *)
Theorem feed_chunks (fuel1 fuel2 : nat) (buffer data1 data2 : string)
    (msgs1 msgs2 : list string) (rest1 rest2 : string) :
  Framer.feed fuel1 buffer data1 = Some (msgs1, rest1) ->
  Framer.feed fuel2 rest1 data2 = Some (msgs2, rest2) ->
  Framer.feed (fuel1 + fuel2) buffer (data1 +:+ data2)
  = Some (msgs1 ++ msgs2, rest2).
Proof.
  unfold Framer.feed. rewrite <- string_app_assoc. apply process_buffer_app.
Qed.

Lemma feed_chunks_witness :
  Framer.feed (3 + 3) "" ("<data>a</data><da" +:+ "ta>b</data>x")
  = Some (["<data>a</data>"%string] ++ ["<data>b</data>"%string], "x"%string).
Proof.
  apply (feed_chunks 3 3 "" "<data>a</data><da" "ta>b</data>x"
           ["<data>a</data>"%string] ["<data>b</data>"%string] "<da" "x");
    reflexivity.
Defined.

(** ** Report extractor, continued *)

Lemma parse_gps_data_in_range `{PyRuntime} (target : option string)
    (xml_data : string) (pts : list Point) :
  parse_gps_data target xml_data = Some pts -> Forall in_range pts.
Proof.
  intros Hparse. apply Forall_forall. intros p Hp.
  apply parse_gps_data_Some in Hparse as (root & meta & se & _ & _ & _ & _ & ->).
  apply scan_report_types_elem in Hp as [element He].
  apply extract_gps_point_fields in He. tauto.
Qed.

(** X6: with a target sender configured, every record that
    [parse_gps_data] returns has that sender, and a message of any other
    sender returns [None] whatever reports it holds. *)
Theorem target_filter `{PyRuntime} (target : option string)
    (xml_data : string) :
  Py.truthy target = true ->
  (forall pts, parse_gps_data target xml_data = Some pts ->
               Forall (fun p => sender p = target) pts) /\
  (forall root meta sender_elem,
      ET_fromstring xml_data = Some root ->
      ET.find "meta" root = Some meta ->
      ET.find "sender" meta = Some sender_elem ->
      ET.text sender_elem <> target ->
      parse_gps_data target xml_data = None).
Proof.
  intros Htarget. split.
  - intros pts Hparse. apply Forall_forall. intros p Hp.
    apply parse_gps_data_Some in Hparse
      as (root & meta & se & _ & _ & _ & Hfilter & ->).
    apply scan_report_types_elem in Hp as [element He].
    apply extract_gps_point_fields in He as (_ & -> & _).
    apply Hfilter, Htarget.
  - intros root meta sender_elem Hroot Hmeta Hsender Hother.
    unfold parse_gps_data. rewrite Hroot, Hmeta, Hsender, Htarget.
    rewrite bool_decide_eq_false_2 by exact Hother. reflexivity.
Qed.

Lemma target_filter_witness :
  (forall pts,
      @parse_gps_data Sample.runtime (Some "300234"%string)
        Sample.xml_collection = Some pts ->
      Forall (fun p => sender p = Some "300234"%string) pts) /\
  @parse_gps_data Sample.runtime (Some "300234"%string) Sample.xml_anonymous
    = None.
Proof.
  destruct (@target_filter Sample.runtime (Some "300234"%string)
              Sample.xml_collection eq_refl) as [Hkept _].
  destruct (@target_filter Sample.runtime (Some "300234"%string)
              Sample.xml_anonymous eq_refl) as [_ Hdropped].
  split; [exact Hkept|].
  apply (Hdropped Sample.doc_anonymous
           (Sample.node "meta" [ET.Elem "sender" [] None []])
           (ET.Elem "sender" [] None []));
    [reflexivity|reflexivity|reflexivity|discriminate].
Defined.

(** X7: a latitude or longitude that [float] reads as not-a-number or as
    an infinity never gives a record. *)
Theorem nonfinite_coordinates_rejected `{PyRuntime}
    (element lat_elem lng_elem : ET.Element) (la ln : float)
    (s : option string) (st : string) (ts pr : option string) :
  ET.find "lat" element = Some lat_elem ->
  ET.find "lng" element = Some lng_elem ->
  py_float (ET.text lat_elem) = Some la ->
  py_float (ET.text lng_elem) = Some ln ->
  la = PrimFloat.nan \/ la = PrimFloat.infinity \/ la = PrimFloat.neg_infinity \/
  ln = PrimFloat.nan \/ ln = PrimFloat.infinity \/ ln = PrimFloat.neg_infinity ->
  _extract_gps_point element s st ts pr = None.
Proof.
  intros Hlat Hlng Hla Hln Hbad.
  unfold _extract_gps_point. rewrite Hlat, Hlng, Hla, Hln.
  assert (Hv : valid_coordinates la ln = false).
  { unfold valid_coordinates.
    destruct Hbad as [-> | [-> | [-> | [-> | [-> | ->]]]]];
      try reflexivity;
      destruct (PrimFloat.leb (-90) la), (PrimFloat.leb la 90); reflexivity. }
  rewrite Hv. reflexivity.
Qed.

Lemma nonfinite_coordinates_rejected_witness :
  @_extract_gps_point Fixture.runtime Fixture.report_nan
    (Some "300234"%string) "Unknown" None None = None /\
  @parse_gps_data Fixture.runtime None Fixture.xml_nan = Some [].
Proof.
  split; [|reflexivity].
  apply (@nonfinite_coordinates_rejected Fixture.runtime Fixture.report_nan
           (Sample.leaf "lat" "nan") (Sample.leaf "lng" "10")
           PrimFloat.nan 10%float);
    [reflexivity|reflexivity|reflexivity|reflexivity|left; reflexivity].
Defined.

(** X8: whether a point gives a record is decided by its [lat] and [lng]
    children alone: two elements that agree on them are both accepted,
    with the same coordinates, or both rejected, whatever their other
    children are and whether or not those convert. *)
Theorem extraction_decided_by_coordinates `{PyRuntime}
    (element1 element2 : ET.Element)
    (s : option string) (st : string) (ts pr : option string) :
  ET.find "lat" element1 = ET.find "lat" element2 ->
  ET.find "lng" element1 = ET.find "lng" element2 ->
  match _extract_gps_point element1 s st ts pr,
        _extract_gps_point element2 s st ts pr with
  | Some p1, Some p2 => lat p1 = lat p2 /\ lng p1 = lng p2
  | None, None => True
  | _, _ => False
  end.
Proof.
  intros Hlat Hlng. unfold _extract_gps_point. rewrite Hlat, Hlng.
  destruct (ET.find "lat" element2) as [lat_elem|]; [|exact I].
  destruct (ET.find "lng" element2) as [lng_elem|]; [|exact I].
  destruct (py_float (ET.text lat_elem)) as [la|]; [|exact I].
  destruct (py_float (ET.text lng_elem)) as [ln|]; [|exact I].
  destruct (valid_coordinates la ln); simpl; auto.
Qed.

Lemma extraction_decided_by_coordinates_witness :
  match @_extract_gps_point Fixture.runtime Fixture.report_bad_altitude
          (Some "300234"%string) "Unknown" None None,
        @_extract_gps_point Fixture.runtime Fixture.report_no_altitude
          (Some "300234"%string) "Unknown" None None with
  | Some p1, Some p2 => lat p1 = lat p2 /\ lng p1 = lng p2
  | None, None => True
  | _, _ => False
  end.
Proof.
  apply (@extraction_decided_by_coordinates Fixture.runtime
           Fixture.report_bad_altitude Fixture.report_no_altitude);
    reflexivity.
Defined.

(** X9: the records of one message all carry the sender type and the
    protocol of its [meta] section: the [type] attribute of the sender
    element, or "Unknown" without one, and the text of the [protocol]
    element, or [None] without one. *)
Theorem records_share_meta `{PyRuntime} (target : option string)
    (xml_data : string) (root meta sender_elem : ET.Element)
    (pts : list Point) :
  ET_fromstring xml_data = Some root ->
  ET.find "meta" root = Some meta ->
  ET.find "sender" meta = Some sender_elem ->
  parse_gps_data target xml_data = Some pts ->
  Forall (fun p =>
            sender_type p = Some (ET.get sender_elem "type" "Unknown") /\
            protocol p = ET.find "protocol" meta ≫= ET.text) pts.
Proof.
  intros Hroot Hmeta Hsender Hparse. apply Forall_forall. intros p Hp.
  apply parse_gps_data_Some in Hparse
    as (root' & meta' & se' & Hroot' & Hmeta' & Hsender' & _ & ->).
  rewrite Hroot in Hroot'. injection Hroot' as <-.
  rewrite Hmeta in Hmeta'. injection Hmeta' as <-.
  rewrite Hsender in Hsender'. injection Hsender' as <-.
  apply scan_report_types_elem in Hp as [element He].
  apply extract_gps_point_fields in He. tauto.
Qed.

Lemma records_share_meta_witness :
  exists pts,
    @parse_gps_data Sample.runtime None Sample.xml_collection = Some pts /\
    Forall (fun p => sender_type p = Some "IMEI"%string /\ protocol p = None)
      pts.
Proof.
  eexists. split; [reflexivity|].
  apply (@records_share_meta Sample.runtime None Sample.xml_collection
           Sample.doc_collection
           (Sample.node "meta"
              [ ET.Elem "sender" [("type", "IMEI")] (Some "300234") [];
                Sample.leaf "time" "t0" ])%string
           (ET.Elem "sender" [("type", "IMEI")] (Some "300234") [])%string);
    reflexivity.
Defined.

(** ** History store, continued *)

(** X10: storing a batch touches only the senders with a record in it:
    the history and the latest position of every other sender are left as
    they were, for any cap. *)
Theorem store_leaves_other_senders (max_points : Z) (st : TrackerState)
    (pts : list Point) (s : option string) :
  records_of s pts = [] ->
  gps_data (store_gps_data max_points st pts) !! s = gps_data st !! s /\
  latest_positions (store_gps_data max_points st pts) !! s
    = latest_positions st !! s.
Proof.
  intros Hnone. rewrite store_gps_data_foldl.
  apply foldl_store_point_untouched, Hnone.
Qed.

Lemma store_leaves_other_senders_witness :
  gps_data (store_gps_data 3 Sample.flagged_then_clear
              [Sample.reading "chase-car" None None])
    !! Some "balloon"%string
    = gps_data Sample.flagged_then_clear !! Some "balloon"%string /\
  latest_positions (store_gps_data 3 Sample.flagged_then_clear
                      [Sample.reading "chase-car" None None])
    !! Some "balloon"%string
    = latest_positions Sample.flagged_then_clear !! Some "balloon"%string.
Proof.
  apply (store_leaves_other_senders 3 Sample.flagged_then_clear
           [Sample.reading "chase-car" None None] (Some "balloon"%string)).
  reflexivity.
Defined.

(** X11: a tracker that loads its rows at start-up and then stores the
    records it receives is in the state that storing everything one record
    at a time, rows first, would have given (cap at least 1, rows grouped
    by sender, no empty sender string). *)
Theorem load_then_store_is_replay (max_points : Z) (rows : list Row)
    (pts : list Point) :
  1 <= max_points ->
  grouped (map row_sender rows) ->
  (forall r, r ∈ rows -> row_sender r <> ""%string) ->
  store_gps_data max_points
    (load_historical_data max_points empty_state rows) pts
  = replay max_points empty_state (map point_of_row rows ++ pts).
Proof.
  intros Hmax Hg Hne.
  rewrite load_historical_data_replay by assumption.
  rewrite store_gps_data_foldl, !replay_foldl, foldl_app. reflexivity.
Qed.

Lemma string_leb_antisym (x y : string) :
  String.leb x y = true -> String.leb y x = true -> x = y.
Proof. apply String.leb_antisym. Qed.

Lemma fixture_rows_grouped : grouped (map row_sender Fixture.rows).
Proof.
  apply (sorted_grouped (fun x y => String.leb x y = true)).
  - apply string_leb_antisym.
  - repeat constructor.
Qed.

Lemma fixture_rows_named (r : Row) : r ∈ Fixture.rows -> row_sender r <> ""%string.
Proof.
  revert r. apply Forall_forall. repeat constructor; discriminate.
Qed.

Lemma load_then_store_is_replay_witness :
  store_gps_data 2 (load_historical_data 2 empty_state Fixture.rows)
    Sample.eight_fixes
  = replay 2 empty_state (map point_of_row Fixture.rows ++ Sample.eight_fixes).
Proof.
  apply (load_then_store_is_replay 2 Fixture.rows Sample.eight_fixes).
  - lia.
  - exact fixture_rows_grouped.
  - exact fixture_rows_named.
Defined.

(** X12: a record written by [_store_to_database] and read back by
    [load_historical_data] is the record that was written, with the
    [emergency] key always set: a row that holds the values bound by the
    INSERT gives back every field as it was and [emergency] as [False]
    when the key was missing. *)
Theorem stored_point_read_back (point : Point) (row : Row) :
  row_holds row (insert_params point) ->
  point_of_row row
  = {| sender := sender point;
       sender_type := sender_type point;
       lat := lat point;
       lng := lng point;
       timestamp := timestamp point;
       protocol := protocol point;
       altitude := altitude point;
       speed := speed point;
       course := course point;
       gps_time := gps_time point;
       fix_type := fix_type point;
       satellites := satellites point;
       emergency := Some (default false (emergency point)) |}.
Proof.
  unfold row_holds, insert_params, point_of_row. simpl.
  intros (Hs & Hst & Hlat & Hlng & Halt & Hspeed & Hcourse & Hts & Hgt & Hft
          & Hsat & Hem & Hpr).
  rewrite Hs, Hst, Hlat, Hlng, Halt, Hspeed, Hcourse, Hts, Hgt, Hft, Hsat,
    Hem, Hpr.
  destruct (default false (emergency point)); reflexivity.
Qed.

Lemma stored_point_read_back_witness :
  point_of_row Fixture.full_row
  = {| sender := Some "300234"%string; sender_type := Some "IMEI"%string;
       lat := 34.5; lng := (-118.25);
       timestamp := Some "2025-09-02T10:00:00"%string;
       protocol := Some "nal"%string;
       altitude := Some 120.0%float; speed := Some 12.5%float;
       course := Some 270.0%float; gps_time := Some "10:00:00"%string;
       fix_type := Some "3D"%string; satellites := Some 9;
       emergency := Some false |}.
Proof.
  apply (stored_point_read_back Fixture.full_fix Fixture.full_row).
  repeat split.
Defined.

(** ** Summarizer, continued *)

(** X13: in a store that has the invariant of the history store, the
    summary has an entry for exactly the senders with a history, and the
    entry of a sender shows the coordinates, time and emergency flag of its
    entry in [latest_positions] and a number of points between 1 and the
    cap. *)
Theorem summary_matches_latest (max_points : Z) (st : TrackerState)
    (s : option string) :
  store_inv max_points st ->
  (is_Some (get_sender_summary st !! s) <-> is_Some (gps_data st !! s)) /\
  (forall entry,
      get_sender_summary st !! s = Some entry ->
      exists latest,
        latest_positions st !! s = Some latest /\
        latest_position entry = (lat latest, lng latest) /\
        latest_time entry = timestamp latest /\
        emergency_active entry = default false (emergency latest) /\
        1 <= total_points entry <= max_points).
Proof.
  intros Hinv. unfold get_sender_summary. rewrite lookup_omap.
  destruct (gps_data st !! s) as [h|] eqn:Hh; simpl.
  - destruct (Hinv s h Hh) as (Hne & Hlen & Hlatest).
    destruct h as [|q h _] using rev_ind; [contradiction|].
    destruct (summarize_sender_snoc h q) as (entry & He & Hact & Hpos & Htime).
    rewrite He. split; [split; eauto|].
    intros entry' Heq. injection Heq as <-.
    exists q. rewrite Hlatest, last_snoc.
    repeat split; try assumption.
    + unfold summarize_sender in He. rewrite list_last_snoc in He.
      injection He as <-. simpl. rewrite length_app. simpl. lia.
    + unfold summarize_sender in He. rewrite list_last_snoc in He.
      injection He as <-. simpl. exact Hlen.
  - split; [split; intros [? ?]; discriminate|]. discriminate.
Qed.

Lemma empty_state_inv (max_points : Z) : store_inv max_points empty_state.
Proof. intros s h Hs. simpl in Hs. rewrite lookup_empty in Hs. discriminate. Qed.

Lemma summary_matches_latest_witness :
  let st := store_gps_data 3 empty_state Sample.eight_fixes in
  (is_Some (get_sender_summary st !! Some "balloon"%string)
   <-> is_Some (gps_data st !! Some "balloon"%string)) /\
  (forall entry,
      get_sender_summary st !! Some "balloon"%string = Some entry ->
      exists latest,
        latest_positions st !! Some "balloon"%string = Some latest /\
        latest_position entry = (lat latest, lng latest) /\
        latest_time entry = timestamp latest /\
        emergency_active entry = default false (emergency latest) /\
        1 <= total_points entry <= 3).
Proof.
  apply (summary_matches_latest 3
           (store_gps_data 3 empty_state Sample.eight_fixes)
           (Some "balloon"%string)).
  rewrite store_gps_data_foldl.
  apply foldl_store_point_inv; [lia|apply empty_state_inv].
Defined.

(** X14: the altitude fields look at the last five records only: whatever
    older records come before five or more records, the result is the one
    computed from those records alone. *)
Theorem altitude_trend_of_recent (older recent : list Point) :
  (5 <= length recent)%nat ->
  _calculate_altitude_trend (older ++ recent) = _calculate_altitude_trend recent.
Proof.
  intros Hlen.
  assert (Hlast : Py.list_last (older ++ recent) = Py.list_last recent).
  { unfold Py.list_last. destruct recent as [|q recent _] using rev_ind;
      [simpl in Hlen; lia|].
    rewrite app_assoc, !last_snoc. reflexivity. }
  assert (Hrecent : AltitudeSpec.last_records (older ++ recent)
                    = AltitudeSpec.last_records recent).
  { unfold AltitudeSpec.last_records. rewrite length_app.
    replace (length older + length recent
             - Nat.min 5 (length older + length recent))%nat
      with (length older + (length recent - 5))%nat by lia.
    replace (length recent - Nat.min 5 (length recent))%nat
      with (length recent - 5)%nat by lia.
    rewrite drop_app_add'; reflexivity. }
  unfold _calculate_altitude_trend.
  rewrite !recent_points_spec, Hlast, Hrecent, length_app.
  destruct (Py.list_last recent) as [latest|]; [|reflexivity].
  destruct (Z.ltb_spec (Z.of_nat (length older + length recent)) 2); [lia|].
  destruct (Z.ltb_spec (Z.of_nat (length recent)) 2); [lia|].
  reflexivity.
Qed.

Lemma altitude_trend_of_recent_witness :
  _calculate_altitude_trend (take 3 Sample.eight_fixes ++ drop 3 Sample.eight_fixes)
  = _calculate_altitude_trend (drop 3 Sample.eight_fixes).
Proof.
  apply (altitude_trend_of_recent (take 3 Sample.eight_fixes)
           (drop 3 Sample.eight_fixes)).
  simpl. lia.
Defined.

(** ** Marker selection *)

Lemma emergency_indices_elem (sorted_points : list Point) (i : nat) :
  i ∈ emergency_indices sorted_points <->
  exists point, sorted_points !! i = Some point /\ emergency point = Some true.
Proof.
  unfold emergency_indices. rewrite list_elem_of_omap. split.
  - intros ([j point] & Hin & Hsel). simpl in Hsel.
    apply elem_of_lookup_imap in Hin as (j' & point' & Heq & Hlookup).
    injection Heq as -> ->.
    destruct (bool_decide_reflect (emergency point' = Some true)) as [Hem|];
      [|discriminate].
    injection Hsel as <-. eauto.
  - intros (point & Hlookup & Hem). exists (i, point). split.
    + apply (elem_of_lookup_imap_2 (fun i point => (i, point))). exact Hlookup.
    + simpl. rewrite bool_decide_eq_true_2 by exact Hem. reflexivity.
Qed.

Lemma py_range_elem (start stop step i : nat) :
  (0 < step)%nat ->
  i ∈ py_range start stop step <->
  exists k, i = (start + k * step)%nat /\ (i < stop)%nat.
Proof.
  intros Hstep. unfold py_range. rewrite list_elem_of_fmap.
  set (a := (stop - start)%nat).
  pose proof (Nat.div_mod_eq (a + (step - 1)) step) as Hdiv.
  pose proof (Nat.mod_upper_bound (a + (step - 1)) step ltac:(lia)) as Hmod.
  set (q := ((a + (step - 1)) / step)%nat) in *.
  set (r := ((a + (step - 1)) mod step)%nat) in *.
  split.
  - intros (k & -> & Hk). apply elem_of_seq in Hk. exists k. split; [reflexivity|].
    assert (k * step + step <= q * step)%nat by nia. lia.
  - intros (k & -> & Hlt). exists k. split; [reflexivity|].
    apply elem_of_seq. split; [lia|].
    assert (k * step < a)%nat by lia.
    destruct (Nat.lt_ge_cases k q) as [|Hge]; [lia|exfalso]. nia.
Qed.

Lemma show_idx_elem (sorted_points : list Point) (i : nat) :
  i ∈ show_idx sorted_points <->
  (sorted_points <> [] /\ (i = 0 \/ i = length sorted_points - 1)%nat) \/
  (exists point, sorted_points !! i = Some point /\ emergency point = Some true) \/
  ((max_markers < length sorted_points)%nat /\
   exists k, i = (1 + k * Nat.max 1 (length sorted_points / 18))%nat /\
             (i < length sorted_points - 1)%nat).
Proof.
  unfold show_idx. cbv zeta. rewrite !elem_of_union.
  rewrite elem_of_list_to_set, emergency_indices_elem.
  assert (Hends :
    i ∈ (if (0 <? length sorted_points)%nat
         then ({[ 0%nat ]} ∪ {[ (length sorted_points - 1)%nat ]} : gset nat)
         else ∅)
    <-> sorted_points <> [] /\ (i = 0 \/ i = length sorted_points - 1)%nat).
  { destruct (Nat.ltb_spec 0 (length sorted_points)) as [Hpos|Hzero].
    - rewrite elem_of_union, !elem_of_singleton. split.
      + intros Hi. split; [|exact Hi]. intros ->. simpl in Hpos. lia.
      + tauto.
    - rewrite elem_of_empty. split; [tauto|].
      intros [Hne _]. destruct sorted_points; [contradiction|simpl in Hzero; lia]. }
  assert (Hsampled :
    i ∈ (if (max_markers <? length sorted_points)%nat
         then list_to_set
                (py_range 1 (length sorted_points - 1)
                   (Nat.max 1 (length sorted_points / (max_markers - 2))))
         else (∅ : gset nat))
    <-> (max_markers < length sorted_points)%nat /\
        exists k, i = (1 + k * Nat.max 1 (length sorted_points / 18))%nat /\
                  (i < length sorted_points - 1)%nat).
  { destruct (Nat.ltb_spec max_markers (length sorted_points)) as [Hbig|Hsmall].
    - rewrite elem_of_list_to_set, py_range_elem by lia.
      change (max_markers - 2)%nat with 18%nat. tauto.
    - rewrite elem_of_empty. split; [tauto|]. intros [Hbig _]. lia. }
  rewrite Hends, Hsampled. tauto.
Qed.

(** X15: for the points of one sender, the first point, the last point
    and every point flagged as an emergency are in [show_idx], every index
    in [show_idx] is an index of the list, and the markers are drawn for
    exactly the indices in [show_idx]. *)
Theorem markers_always_shown (sorted_points : list Point) :
  sorted_points <> [] ->
  0%nat ∈ show_idx sorted_points /\
  (length sorted_points - 1)%nat ∈ show_idx sorted_points /\
  (forall i point,
      sorted_points !! i = Some point -> emergency point = Some true ->
      i ∈ show_idx sorted_points) /\
  (forall i, i ∈ show_idx sorted_points -> (i < length sorted_points)%nat) /\
  (forall i, i ∈ marker_indices sorted_points <-> i ∈ show_idx sorted_points).
Proof.
  intros Hne.
  assert (Hpos : (0 < length sorted_points)%nat)
    by (destruct sorted_points; [contradiction|simpl; lia]).
  assert (Hbound : forall i, i ∈ show_idx sorted_points ->
                             (i < length sorted_points)%nat).
  { intros i Hi. apply show_idx_elem in Hi
      as [[_ [-> | ->]] | [(point & Hlookup & _) | [_ (k & _ & Hlt)]]]; try lia.
    apply lookup_lt_Some in Hlookup. exact Hlookup. }
  split; [apply show_idx_elem; left; auto|].
  split; [apply show_idx_elem; left; auto|].
  split; [intros i point Hlookup Hem; apply show_idx_elem; right; left; eauto|].
  split; [exact Hbound|].
  intros i. unfold marker_indices. rewrite list_elem_of_filter, elem_of_seq.
  split; [tauto|]. intros Hi. split; [exact Hi|]. specialize (Hbound i Hi). lia.
Qed.

Lemma markers_always_shown_witness :
  0%nat ∈ show_idx Sample.eight_fixes /\
  (length Sample.eight_fixes - 1)%nat ∈ show_idx Sample.eight_fixes /\
  (forall i point,
      Sample.eight_fixes !! i = Some point -> emergency point = Some true ->
      i ∈ show_idx Sample.eight_fixes) /\
  (forall i, i ∈ show_idx Sample.eight_fixes ->
             (i < length Sample.eight_fixes)%nat) /\
  (forall i, i ∈ marker_indices Sample.eight_fixes
             <-> i ∈ show_idx Sample.eight_fixes).
Proof.
  apply (markers_always_shown Sample.eight_fixes). discriminate.
Defined.

(** X16: up to [max_markers] points, no point between the first and the
    last gets a marker unless it is flagged as an emergency. *)
Theorem markers_of_short_track (sorted_points : list Point) (i : nat) :
  (length sorted_points <= max_markers)%nat ->
  i ∈ show_idx sorted_points <->
  (sorted_points <> [] /\ (i = 0 \/ i = length sorted_points - 1)%nat) \/
  (exists point, sorted_points !! i = Some point /\ emergency point = Some true).
Proof.
  intros Hshort. rewrite show_idx_elem. split; [|tauto].
  intros [Hends | [Hem | [Hbig _]]]; [tauto|tauto|lia].
Qed.

Lemma markers_of_short_track_witness :
  marker_indices Sample.eight_fixes = [0; 7]%nat /\
  (4%nat ∈ show_idx Sample.eight_fixes <->
   (Sample.eight_fixes <> [] /\
    (4 = 0 \/ 4 = length Sample.eight_fixes - 1)%nat) \/
   (exists point, Sample.eight_fixes !! 4%nat = Some point /\
                  emergency point = Some true)).
Proof.
  split; [reflexivity|].
  apply (markers_of_short_track Sample.eight_fixes 4). simpl. unfold max_markers. lia.
Defined.

Lemma filter_all {A} (P : A -> Prop) `{forall x, Decision (P x)} (l : list A) :
  (forall x, x ∈ l -> P x) -> filter P l = l.
Proof.
  intros Hall. induction l as [|x l IH]; [reflexivity|].
  rewrite filter_cons_True by apply Hall, list_elem_of_here.
  f_equal. apply IH. intros y Hy. apply Hall. by apply list_elem_of_further.
Qed.

(** X17: with 21 to 35 points the sampling step is 1 and every point gets
    a marker: more markers than [max_markers]. *)
Theorem markers_of_medium_track (sorted_points : list Point) :
  (max_markers < length sorted_points < 36)%nat ->
  marker_indices sorted_points = seq 0 (length sorted_points) /\
  (max_markers < length (marker_indices sorted_points))%nat.
Proof.
  intros [Hbig Hmedium]. unfold max_markers in Hbig.
  assert (Hall : marker_indices sorted_points = seq 0 (length sorted_points)).
  { unfold marker_indices. apply filter_all. intros i Hi.
    apply elem_of_seq in Hi. apply show_idx_elem.
    destruct (decide (i = 0%nat)) as [->|Hfirst].
    { left. split; [|auto]. intros ->. simpl in Hbig. lia. }
    destruct (decide (i = length sorted_points - 1)%nat) as [->|Hlast].
    { left. split; [|auto]. intros ->. simpl in Hbig. lia. }
    right. right. split; [unfold max_markers; lia|].
    assert (Hstep : (length sorted_points / 18 = 1)%nat).
    { symmetry. apply (Nat.div_unique _ 18 1 (length sorted_points - 18)); lia. }
    rewrite Hstep. exists (i - 1)%nat. simpl Nat.max. lia. }
  split; [exact Hall|]. rewrite Hall, length_seq. unfold max_markers. lia.
Qed.

Lemma markers_of_medium_track_witness :
  marker_indices (Sample.eight_fixes ++ Sample.eight_fixes ++ Sample.eight_fixes)
  = seq 0 24 /\
  (max_markers
   < length (marker_indices
               (Sample.eight_fixes ++ Sample.eight_fixes ++ Sample.eight_fixes)))%nat.
Proof.
  apply (markers_of_medium_track
           (Sample.eight_fixes ++ Sample.eight_fixes ++ Sample.eight_fixes)).
  simpl. unfold max_markers. lia.
Defined.

(** ** The receive loop *)

Lemma store_point_same_senders (max_points : Z) (st : TrackerState) (p : Point) :
  same_senders st -> same_senders (store_point max_points st p).
Proof.
  intros Hsame s. unfold store_point; simpl.
  destruct (decide (sender p = s)) as [<-|Hne].
  - rewrite !lookup_insert_eq. split; eauto.
  - rewrite !lookup_insert_ne by assumption. apply Hsame.
Qed.

Lemma foldl_store_point_same_senders (max_points : Z) (pts : list Point)
    (st : TrackerState) :
  same_senders st -> same_senders (foldl (store_point max_points) st pts).
Proof.
  revert st. induction pts as [|p pts IH]; intros st Hsame; [exact Hsame|].
  simpl. apply IH, store_point_same_senders, Hsame.
Qed.

Lemma installed_same_senders (max_points : Z) (st : TrackerState)
    (cur : option string) (pts : list Point) :
  same_senders st -> same_senders (installed max_points st cur pts).
Proof.
  intros Hsame. unfold installed.
  destruct (last pts); [|exact Hsame].
  destruct (Py.truthy cur); [|exact Hsame].
  intros s. simpl. destruct (decide (cur = s)) as [<-|Hne].
  - rewrite !lookup_insert_eq. split; eauto.
  - rewrite !lookup_insert_ne by assumption. apply Hsame.
Qed.

Lemma load_rows_same_senders (max_points : Z) (rows : list Row)
    (cur : option string) (pts : list Point) (st : TrackerState) :
  1 <= max_points ->
  same_senders st -> same_senders (load_rows max_points rows cur pts st).
Proof.
  intros Hmax. revert cur pts st.
  induction rows as [|row rows IH]; intros cur pts st Hsame.
  - rewrite load_rows_nil by assumption. apply installed_same_senders, Hsame.
  - destruct (decide (cur = Some (row_sender row))) as [->|Hne].
    + rewrite load_rows_same. apply IH, Hsame.
    + rewrite load_rows_change by assumption.
      apply IH, installed_same_senders, Hsame.
Qed.

Section ListenFacts.
Context `{PyRuntime}.
Variable max_points : Z.
Variable target : option string.

Lemma handle_message_foldl (st : TrackerState) (xml_message : string) :
  exists pts,
    handle_message max_points target st xml_message
    = foldl (store_point max_points) st pts /\
    Forall in_range pts.
Proof.
  unfold handle_message.
  destruct (parse_gps_data target xml_message) as [pts|] eqn:Hparse.
  - exists pts. split; [|eapply parse_gps_data_in_range; eassumption].
    destruct pts; [reflexivity|]. apply store_gps_data_foldl.
  - exists []. split; [reflexivity|constructor].
Qed.

(** What [store_point] keeps, the handling of any number of messages
    keeps. *)
Lemma handle_messages_keep (P : TrackerState -> Prop) (msgs : list string)
    (st : TrackerState) :
  (forall st p, in_range p -> P st -> P (store_point max_points st p)) ->
  P st -> P (foldl (handle_message max_points target) st msgs).
Proof.
  intros Hstep. revert st. induction msgs as [|msg msgs IH]; intros st Hst;
    [exact Hst|].
  simpl. apply IH.
  destruct (handle_message_foldl st msg) as (pts & -> & Hpts).
  clear IH. revert st Hst. induction Hpts as [|p pts Hp _ IHpts]; intros st Hst;
    [exact Hst|].
  simpl. apply IHpts, Hstep; assumption.
Qed.

Lemma listen_keeps (P : TrackerState -> Prop) (fuel : nat)
    (received : list recv_result) (buffer : string) (st : TrackerState)
    (st' : TrackerState) (buffer' : string) :
  (forall st p, in_range p -> P st -> P (store_point max_points st p)) ->
  P st ->
  listen max_points target fuel received buffer st = Some (st', buffer') ->
  P st'.
Proof.
  intros Hstep. revert buffer st.
  induction received as [|[data| |] received IH]; intros buffer st Hst; simpl.
  - intros Heq. injection Heq as <- <-. exact Hst.
  - destruct (String.eqb data ""); [intros Heq; injection Heq as <- <-; exact Hst|].
    destruct (Framer.feed fuel buffer data) as [[msgs rest]|]; [|discriminate].
    apply IH, handle_messages_keep; assumption.
  - apply IH, Hst.
  - intros Heq. injection Heq as <- <-. exact Hst.
Qed.

Lemma listen_more_fuel (fuel fuel' : nat) (received : list recv_result)
    (buffer : string) (st : TrackerState) r :
  listen max_points target fuel received buffer st = Some r ->
  (fuel <= fuel')%nat ->
  listen max_points target fuel' received buffer st = Some r.
Proof.
  intros Hrun Hle. revert buffer st Hrun.
  induction received as [|[data| |] received IH]; intros buffer st; simpl;
    try (intros Hrun; exact Hrun).
  - destruct (String.eqb data ""); [intros Hrun; exact Hrun|].
    unfold Framer.feed.
    destruct (Framer.process_buffer fuel (buffer +:+ data)) as [[msgs rest]|]
      eqn:Hfeed; [|discriminate].
    rewrite (process_buffer_more_fuel fuel fuel' _ _ Hfeed Hle). apply IH.
  - apply IH.
Qed.

End ListenFacts.

(** X18: a tracker that loads any rows at start-up (cap at least 1) and
    then runs the receive loop over any sequence of reads still has, when
    the loop is left, a non-empty history of at most the cap for every
    sender it knows, ending with that sender's latest position, and the
    same senders in [gps_data] and [latest_positions]. *)
Theorem tracker_lifecycle_invariant `{PyRuntime} (max_points : Z)
    (target : option string) (rows : list Row) (fuel : nat)
    (received : list recv_result) (st' : TrackerState) (buffer' : string) :
  1 <= max_points ->
  listen max_points target fuel received ""
    (load_historical_data max_points empty_state rows)
  = Some (st', buffer') ->
  store_inv max_points st' /\ same_senders st'.
Proof.
  intros Hmax Hrun. split.
  - eapply (listen_keeps max_points target (store_inv max_points));
      [| |exact Hrun].
    + intros st p _. apply store_point_inv, Hmax.
    + apply load_rows_inv; [exact Hmax|apply empty_state_inv].
  - eapply (listen_keeps max_points target same_senders); [| |exact Hrun].
    + intros st p _. apply store_point_same_senders.
    + apply load_rows_same_senders; [exact Hmax|].
      intros s. simpl. rewrite !lookup_empty.
      split; intros [? ?]; discriminate.
Qed.

Lemma tracker_lifecycle_invariant_witness :
  exists st' buffer',
    @listen Sample.runtime 2 None 4
      [Received Sample.xml_collection; TimedOut; Received Sample.xml_anonymous]
      "" (load_historical_data 2 empty_state Fixture.rows)
    = Some (st', buffer') /\
    store_inv 2 st' /\ same_senders st'.
Proof.
  eexists _, _. split; [reflexivity|].
  eapply (@tracker_lifecycle_invariant Sample.runtime 2 None Fixture.rows 4
            [Received Sample.xml_collection; TimedOut;
             Received Sample.xml_anonymous]);
    [lia|reflexivity].
Defined.

(** X19: the receive loop only ever adds records with [lat] in
    [-90, 90] and [lng] in [-180, 180]: a store that holds only such
    records holds only such records when the loop is left. *)
Theorem listen_keeps_coordinates_in_range `{PyRuntime} (max_points : Z)
    (target : option string) (fuel : nat) (received : list recv_result)
    (buffer : string) (st st' : TrackerState) (buffer' : string) :
  all_in_range st ->
  listen max_points target fuel received buffer st = Some (st', buffer') ->
  all_in_range st'.
Proof.
  intros Hst Hrun.
  eapply (listen_keeps max_points target all_in_range); [|exact Hst|exact Hrun].
  intros st0 p Hp Hst0. apply store_point_in_range; assumption.
Qed.

Lemma empty_state_in_range : all_in_range empty_state.
Proof.
  split.
  - intros s h p Hs. simpl in Hs. rewrite lookup_empty in Hs. discriminate.
  - intros s p Hs. simpl in Hs. rewrite lookup_empty in Hs. discriminate.
Qed.

Lemma listen_keeps_coordinates_in_range_witness :
  exists st' buffer',
    @listen Sample.runtime 2 None 4
      [Received Sample.xml_collection; Received Sample.xml_anonymous]
      "" empty_state
    = Some (st', buffer') /\
    all_in_range st'.
Proof.
  eexists _, _. split; [reflexivity|].
  eapply (@listen_keeps_coordinates_in_range Sample.runtime 2 None 4
            [Received Sample.xml_collection; Received Sample.xml_anonymous]
            "" empty_state _ _ empty_state_in_range).
  reflexivity.
Defined.

Lemma string_app_nonempty (s t : string) :
  s <> ""%string -> String.eqb (s +:+ t) "" = false.
Proof. intros Hs. destruct s; [contradiction|reflexivity]. Qed.

(** X20: on the decoded texts of the reads: when the loop is left after
    a read whose text is [data1] and a read whose text is [data2], both
    non-empty, followed by others, it is left in the same state, with the
    same buffer, after one read whose text is [data1] followed by [data2]
    and then the same others.  (Each read is decoded on its own: the text
    of the joined bytes is the joined texts only when the cut does not
    fall inside a multi-byte character.) *)
Theorem listen_chunks `{PyRuntime} (max_points : Z) (target : option string)
    (fuel : nat) (data1 data2 : string) (received : list recv_result)
    (buffer : string) (st : TrackerState) (r : TrackerState * string) :
  data1 <> ""%string -> data2 <> ""%string ->
  listen max_points target fuel
    (Received data1 :: Received data2 :: received) buffer st = Some r ->
  listen max_points target (fuel + fuel)
    (Received (data1 +:+ data2) :: received) buffer st = Some r.
Proof.
  intros Hd1 Hd2. cbn [listen].
  apply String.eqb_neq in Hd2 as Hd2'. rewrite Hd2'.
  apply String.eqb_neq in Hd1 as Hd1'. rewrite Hd1'.
  rewrite (string_app_nonempty data1 data2 Hd1).
  destruct (Framer.feed fuel buffer data1) as [[msgs1 rest1]|] eqn:Hfeed1;
    [|discriminate].
  destruct (Framer.feed fuel rest1 data2) as [[msgs2 rest2]|] eqn:Hfeed2;
    [|discriminate].
  unfold Framer.feed in *. rewrite <- string_app_assoc.
  rewrite (process_buffer_app fuel fuel _ data2 _ _ _ _ Hfeed1 Hfeed2).
  rewrite foldl_app. intros Hrun.
  apply (listen_more_fuel max_points target fuel); [exact Hrun|lia].
Qed.

Lemma listen_chunks_witness :
  exists r,
    @listen Sample.runtime 2 None 4
      [Received (String.substring 0 40 Sample.xml_anonymous);
       Received (String.substring 40 60 Sample.xml_anonymous)] "" empty_state
    = Some r /\
    @listen Sample.runtime 2 None (4 + 4)
      [Received (String.substring 0 40 Sample.xml_anonymous
                 +:+ String.substring 40 60 Sample.xml_anonymous)]
      "" empty_state
    = Some r.
Proof.
  eexists. split; [reflexivity|].
  apply (@listen_chunks Sample.runtime 2 None 4
           (String.substring 0 40 Sample.xml_anonymous)
           (String.substring 40 60 Sample.xml_anonymous) [] "" empty_state);
    [discriminate|discriminate|reflexivity].
Defined.

(** X21: an empty read and a failed read end the loop, so that nothing
    read after them is looked at, and a timed-out read changes nothing:
    the loop goes on with the next read. *)
Theorem listen_end_and_timeout `{PyRuntime} (max_points : Z)
    (target : option string) (fuel : nat) (before after : list recv_result)
    (buffer : string) (st : TrackerState) :
  listen max_points target fuel (before ++ Received "" :: after) buffer st
    = listen max_points target fuel before buffer st /\
  listen max_points target fuel (before ++ Failed :: after) buffer st
    = listen max_points target fuel before buffer st /\
  listen max_points target fuel (before ++ TimedOut :: after) buffer st
    = listen max_points target fuel (before ++ after) buffer st.
Proof.
  revert buffer st.
  induction before as [|[data| |] before IH]; intros buffer st.
  - repeat split; reflexivity.
  - rewrite <- !app_comm_cons. cbn [listen].
    destruct (String.eqb data ""); [repeat split; reflexivity|].
    destruct (Framer.feed fuel buffer data) as [[msgs rest]|];
      [apply IH|repeat split; reflexivity].
  - rewrite <- !app_comm_cons. cbn [listen]. apply IH.
  - repeat split; reflexivity.
Qed.

(** ** Store and summary together *)

Lemma window_length_min (max_points : Z) (l : list Point) :
  0 <= max_points ->
  Z.of_nat (length (window max_points l))
  = Z.min max_points (Z.of_nat (length l)).
Proof. intros Hmax. unfold window. rewrite length_drop. lia. Qed.

(** X22: the summary computed right after a batch has been stored shows,
    for every sender with a record in the batch, the coordinates, time and
    emergency flag of that sender's last record in the batch, and counts
    its old and new records together, up to the cap (cap at least 1). *)
Theorem summary_after_store (max_points : Z) (st : TrackerState)
    (pts earlier : list Point) (newest : Point) (s : option string) :
  1 <= max_points ->
  records_of s pts = earlier ++ [newest] ->
  exists entry,
    get_sender_summary (store_gps_data max_points st pts) !! s = Some entry /\
    latest_position entry = (lat newest, lng newest) /\
    latest_time entry = timestamp newest /\
    emergency_active entry = default false (emergency newest) /\
    total_points entry
    = Z.min max_points
        (Z.of_nat (length (default [] (gps_data st !! s))
                   + length (records_of s pts))).
Proof.
  intros Hmax Hrec. rewrite store_gps_data_foldl.
  destruct (foldl_store_point_window max_points Hmax pts st s) as [Hg _].
  { rewrite Hrec. intros Hnil. destruct earlier; discriminate. }
  unfold get_sender_summary. rewrite lookup_omap, Hg. simpl.
  set (all := default [] (gps_data st !! s) ++ records_of s pts).
  assert (Hsnoc : exists front, window max_points all = front ++ [newest]).
  { destruct (window max_points all) as [|q w _] eqn:Hw using rev_ind.
    - exfalso. unfold all in Hw. rewrite Hrec, app_assoc in Hw.
      apply (window_snoc_nonempty max_points Hmax _ _ Hw).
    - exists w. pose proof (window_last max_points Hmax
                             (default [] (gps_data st !! s) ++ earlier) newest)
        as Hlast.
      rewrite <- app_assoc, <- Hrec in Hlast. fold all in Hlast.
      rewrite Hw, last_snoc in Hlast. injection Hlast as ->. reflexivity. }
  destruct Hsnoc as [front Hfront].
  destruct (summarize_sender_snoc front newest) as (entry & He & Hact & Hpos & Htime).
  exists entry. rewrite Hfront. repeat split; try assumption.
  unfold summarize_sender in He. rewrite list_last_snoc in He.
  injection He as <-. simpl. rewrite <- Hfront.
  rewrite window_length_min by lia. unfold all. rewrite length_app. reflexivity.
Qed.

Lemma summary_after_store_witness :
  exists entry,
    get_sender_summary
      (store_gps_data 3 Sample.flagged_then_clear Sample.eight_fixes)
      !! Some "balloon"%string = Some entry /\
    latest_position entry = (34.0, -118.0)%float /\
    latest_time entry = Some "2025-09-02T10:00:00"%string /\
    emergency_active entry = false /\
    total_points entry = 3.
Proof.
  apply (summary_after_store 3 Sample.flagged_then_clear Sample.eight_fixes
           (take 7 Sample.eight_fixes)
           (Sample.reading "balloon" (Some 8.0%float) None)
           (Some "balloon"%string));
    [lia|reflexivity].
Defined.

(** ** A cap of zero *)

Lemma limit_points_zero (l : list Point) : limit_points 0 l = l.
Proof.
  unfold limit_points, Py.list_slice_from, Py.clamp.
  destruct (Z.of_nat (length l) >? 0); [|reflexivity].
  change (- 0 <? 0) with false. cbv iota.
  replace (Z.to_nat (Z.min (- 0) (Z.of_nat (length l)))) with 0%nat by lia.
  reflexivity.
Qed.

(** X23: with [max_points_per_sender] set to 0 nothing is ever evicted:
    [l[-0:]] is the whole list, so after a batch the history of a sender is
    its whole old history followed by all its records of the batch. *)
Theorem cap_zero_keeps_everything (st : TrackerState) (pts : list Point)
    (s : option string) :
  records_of s pts <> [] ->
  gps_data (store_gps_data 0 st pts) !! s
  = Some (default [] (gps_data st !! s) ++ records_of s pts).
Proof.
  rewrite store_gps_data_foldl.
  induction pts as [|p pts IH] using rev_ind; [intros []; reflexivity|].
  rewrite records_of_snoc, foldl_snoc.
  destruct (decide (sender p = s)) as [<-|Hne].
  - intros _. unfold store_point at 1. simpl.
    rewrite lookup_insert_eq, limit_points_zero. f_equal.
    destruct (records_of (sender p) pts) as [|q qs] eqn:Hrec.
    + destruct (foldl_store_point_untouched 0 pts st (sender p) Hrec) as [-> _].
      rewrite app_nil_l. reflexivity.
    + rewrite IH by discriminate. simpl. rewrite <- app_assoc. reflexivity.
  - intros Hrec.
    destruct (store_point_other 0 (foldl (store_point 0) st pts) p s Hne)
      as [-> _].
    apply IH, Hrec.
Qed.

Lemma cap_zero_keeps_everything_witness :
  gps_data (store_gps_data 0 Sample.flagged_then_clear Sample.eight_fixes)
    !! Some "balloon"%string
  = Some ([Sample.reading "balloon" None (Some true);
           Sample.reading "balloon" None (Some false)] ++ Sample.eight_fixes).
Proof.
  apply (cap_zero_keeps_everything Sample.flagged_then_clear Sample.eight_fixes
           (Some "balloon"%string)).
  discriminate.
Defined.

(** ** [Config.validate] and the tracker *)

Lemma validate_ok (cls : Config) :
  validate cls = inr true <->
  1 <= GPS_PORT cls <= 65535 /\ 1 <= WEB_PORT cls <= 65535 /\
  1 <= MAX_POINTS_PER_SENDER cls.
Proof.
  unfold validate.
  destruct (Z.ltb_spec (GPS_PORT cls) 1), (Z.gtb_spec (GPS_PORT cls) 65535),
    (Z.ltb_spec (WEB_PORT cls) 1), (Z.gtb_spec (WEB_PORT cls) 65535),
    (Z.ltb_spec (MAX_POINTS_PER_SENDER cls) 1); simpl;
    split; intros Hv; try discriminate; try lia; reflexivity.
Qed.

(** X24: [validate] returns [True] only for ports in 1..65535 and a cap
    of at least 1; and when the receive loop of a tracker started with a
    configuration it accepts (as [main] does) is left, after loading any
    rows and receiving any reads, no sender has an empty history or more
    than [MAX_POINTS_PER_SENDER] records. *)
Theorem validated_config_bounds_histories `{PyRuntime} (cls : Config)
    (target : option string) (rows : list Row) (fuel : nat)
    (received : list recv_result) (st' : TrackerState) (buffer' : string) :
  validate cls = inr true ->
  listen (MAX_POINTS_PER_SENDER cls) target fuel received ""
    (load_historical_data (MAX_POINTS_PER_SENDER cls) empty_state rows)
  = Some (st', buffer') ->
  (1 <= GPS_PORT cls <= 65535 /\ 1 <= WEB_PORT cls <= 65535 /\
   1 <= MAX_POINTS_PER_SENDER cls) /\
  forall s h, gps_data st' !! s = Some h ->
              1 <= Z.of_nat (length h) <= MAX_POINTS_PER_SENDER cls.
Proof.
  intros Hvalid Hrun. apply validate_ok in Hvalid as (Hgps & Hweb & Hmax).
  split; [auto|]. intros s h Hs.
  assert (Hinv : store_inv (MAX_POINTS_PER_SENDER cls) st').
  { eapply (listen_keeps (MAX_POINTS_PER_SENDER cls) target
              (store_inv (MAX_POINTS_PER_SENDER cls))); [| |exact Hrun].
    - intros st p _. apply store_point_inv, Hmax.
    - apply load_rows_inv; [exact Hmax|apply empty_state_inv]. }
  destruct (Hinv s h Hs) as (Hne & Hlen & _).
  split; [|exact Hlen]. destruct h; [contradiction|simpl; lia].
Qed.

Lemma validated_config_bounds_histories_witness :
  exists st' buffer',
    @listen Sample.runtime 1000 None 4 [Received Sample.xml_collection] ""
      (load_historical_data 1000 empty_state Fixture.rows)
    = Some (st', buffer') /\
    gps_data st' !! Some "300234"%string <> None /\
    (1 <= 2223 <= 65535 /\ 1 <= 5000 <= 65535 /\ 1 <= 1000) /\
    forall s h, gps_data st' !! s = Some h ->
                1 <= Z.of_nat (length h) <= 1000.
Proof.
  eexists _, _. split; [reflexivity|]. split; [discriminate|].
  eapply (@validated_config_bounds_histories Sample.runtime
            {| GPS_PORT := 2223; WEB_PORT := 5000;
               MAX_POINTS_PER_SENDER := 1000 |}
            None Fixture.rows 4 [Received Sample.xml_collection]);
    reflexivity.
Defined.
